(** * Irys automation (src/index.js): a shallow embedding and its properties

    The program is one JavaScript class, [IrysAutomation], whose methods
    talk to a key file, a captcha service, a faucet, a chain RPC and a
    storage network.  The embedding keeps the methods' names and their
    statement order.  Everything outside the program (file system, HTTP,
    chain, uploader, clock, random source) is an interface, [External];
    each method is a computation in a monad that threads the state of that
    outside world, collects the observable events in order and carries
    JavaScript exceptions, so that [try]/[catch] is a combinator. *)

From Stdlib Require Import ZArith List Bool String Ascii Lia QArith Qround.
From Stdlib Require Import DecimalString.
From ExtLib Require Import Structures.Monad Structures.MonadExc.
Import ListNotations.
Import MonadNotation.

Local Open Scope Z_scope.
Local Open Scope list_scope.
Local Open Scope monad_scope.

Set Implicit Arguments.
#[local] Set Warnings "-register-all".

(* ===================================================================== *)
(** ** JavaScript strings *)
(* ===================================================================== *)

(** A JavaScript string is a sequence of UTF-16 code units. *)
Definition jsstring : Type := list N.

(** A literal of the source, all of whose characters are ASCII. *)
Definition str (s : string) : jsstring :=
  List.map N_of_ascii (list_ascii_of_string s).

Arguments str : simpl never.

Definition jsstring_eqb (a b : jsstring) : bool :=
  if list_eq_dec N.eq_dec a b then true else false.

Definition js_length (s : jsstring) : Z := Z.of_nat (List.length s).

(** [WhiteSpace] and [LineTerminator] of ECMAScript, the code units that
    [String.prototype.trim] strips at both ends. *)
Definition isWhiteSpace (c : N) : bool :=
  ((c =? 9) || (c =? 10) || (c =? 11) || (c =? 12) || (c =? 13) || (c =? 32)
   || (c =? 160) || (c =? 5760) || ((8192 <=? c) && (c <=? 8202))
   || (c =? 8232) || (c =? 8233) || (c =? 8239) || (c =? 8287)
   || (c =? 12288) || (c =? 65279))%N.

Fixpoint trimStart (s : jsstring) : jsstring :=
  match s with
  | [] => []
  | c :: r => if isWhiteSpace c then trimStart r else s
  end.

Definition trimEnd (s : jsstring) : jsstring := rev (trimStart (rev s)).

(** [s.trim()] *)
Definition trim (s : jsstring) : jsstring := trimEnd (trimStart s).

(** [s.startsWith(p)] *)
Fixpoint startsWith (p s : jsstring) : bool :=
  match p, s with
  | [], _ => true
  | _ :: _, [] => false
  | a :: p', b :: s' => (a =? b)%N && startsWith p' s'
  end.

(** [s.split(sep)] for a separator of one code unit: never empty, the
    empty string splits into one empty piece. *)
Fixpoint split (sep : N) (s : jsstring) : list jsstring :=
  match s with
  | [] => [[]]
  | c :: r =>
      if (c =? sep)%N then [] :: split sep r
      else match split sep r with
           | h :: t => (c :: h) :: t
           | [] => [[c]]
           end
  end.

(** Index arguments of [substring] are clamped to [0, length]. *)
Definition clampIndex (s : jsstring) (i : Z) : nat :=
  Z.to_nat (Z.min (Z.max i 0) (js_length s)).

(** [s.substring(a, b)]: clamps both indices and swaps them when [a > b]. *)
Definition substring (s : jsstring) (a b : Z) : jsstring :=
  let a' := clampIndex s a in
  let b' := clampIndex s b in
  let lo := Nat.min a' b' in
  let hi := Nat.max a' b' in
  firstn (hi - lo) (skipn lo s).

(** [s.substring(a)] *)
Definition substringFrom (s : jsstring) (a : Z) : jsstring :=
  substring s a (js_length s).

(** [n.toString()] of an integer, in decimal. *)
Definition Z_toString (z : Z) : jsstring :=
  str (NilZero.string_of_int (Z.to_int z)).

(** [Buffer.from(s).byteLength]: the length of the UTF-8 encoding; a
    surrogate pair takes four bytes, a lone surrogate is replaced by U+FFFD
    (three bytes). *)
Fixpoint utf8ByteLength (s : jsstring) : Z :=
  match s with
  | [] => 0
  | c :: r =>
      if (c <? 128)%N then 1 + utf8ByteLength r
      else if (c <? 2048)%N then 2 + utf8ByteLength r
      else if ((55296 <=? c) && (c <=? 56319))%N then
        match r with
        | d :: r' =>
            if ((56320 <=? d) && (d <=? 57343))%N
            then 4 + utf8ByteLength r'
            else 3 + utf8ByteLength r
        | [] => 3
        end
      else 3 + utf8ByteLength r
  end.

(* ===================================================================== *)
(** ** JavaScript values and exceptions *)
(* ===================================================================== *)

(** The values that cross the program's boundaries: parsed JSON bodies of
    HTTP responses, request payloads, return values.  Numbers are the
    integers; a non-integer number behaves like a non-zero integer under
    every operation the program applies to such a value (truthiness and
    strict equality with a string). *)
Inductive JsVal : Type :=
| JUndefined
| JNull
| JBool (b : bool)
| JNum (z : Z)
| JStr (s : jsstring)
| JArr (items : list JsVal)
| JObj (fields : list (string * JsVal)).

Inductive JsError : Type :=
| TypeError
| ReferenceError
| ExternalError (what : string).

(** The result of evaluating an expression or awaiting a promise. *)
Inductive Outcome (A : Type) : Type :=
| Ret (a : A)
| Throw (e : JsError).
Arguments Ret {A} a.
Arguments Throw {A} e.

(** ToBoolean *)
Definition truthy (v : JsVal) : bool :=
  match v with
  | JUndefined | JNull => false
  | JBool b => b
  | JNum z => negb (z =? 0)
  | JStr s => match s with [] => false | _ => true end
  | JArr _ | JObj _ => true
  end.

Definition isNullish (v : JsVal) : bool :=
  match v with
  | JUndefined | JNull => true
  | _ => false
  end.

Fixpoint lookupField (k : string) (fs : list (string * JsVal)) : JsVal :=
  match fs with
  | [] => JUndefined
  | (k', v) :: r => if String.eqb k k' then v else lookupField k r
  end.

(** [v.k] for the property names the program reads ([taskId], [status],
    [solution], [token], [success], [data], [transactionHash]): a
    [TypeError] on [undefined] and [null], the field of an object,
    [undefined] on every other value. *)
Definition getProp (v : JsVal) (k : string) : Outcome JsVal :=
  match v with
  | JUndefined | JNull => Throw TypeError
  | JObj fs => Ret (lookupField k fs)
  | _ => Ret JUndefined
  end.

(** [v?.k] *)
Definition getPropOpt (v : JsVal) (k : string) : JsVal :=
  match v with
  | JObj fs => lookupField k fs
  | _ => JUndefined
  end.

(** [v === 'lit'] *)
Definition strictEqStr (v : JsVal) (lit : jsstring) : bool :=
  match v with
  | JStr s => jsstring_eqb s lit
  | _ => false
  end.

(* ===================================================================== *)
(** ** JavaScript numbers *)
(* ===================================================================== *)

(** The integers of the configuration (scores, times, counts) are taken to
    be below [2 ^ 52] in magnitude: as binary64 values they are exact, and
    so are their sums and differences.  The one operation of the program
    that rounds is the product of a random draw with an integer. *)

(** A value of [Math.random()]: the binary64 number
    [significand / 2 ^ scale]. *)
Record UnitDouble : Type := {
  significand : Z;
  scale : Z
}.

(** The binary64 numbers of [[0, 1)]. *)
Definition isUnitDouble (r : UnitDouble) : Prop :=
  0 <= significand r < 2 ^ 53 /\
  significand r < 2 ^ scale r /\
  0 <= scale r <= 1074.

(** The rational a draw stands for. *)
Definition valueOf (r : UnitDouble) : Q :=
  Qmake (significand r) (Z.to_pos (2 ^ scale r)).

(** Rounding a non-negative integer to 53 significant bits, to nearest,
    ties to even: what binary64 keeps of it. *)
Definition round53 (p : Z) : Z :=
  let s := Z.log2 p + 1 - 53 in
  if s <=? 0 then p
  else
    let q := p / 2 ^ s in
    let rem := p mod 2 ^ s in
    let half := 2 ^ (s - 1) in
    let q' := if rem <? half then q
              else if half <? rem then q + 1
              else if Z.even q then q else q + 1 in
    q' * 2 ^ s.

(** The binary64 product of a draw with an integer [n], as a multiple of
    [1 / 2 ^ scale]; rounding is symmetric in the sign. *)
Definition timesInteger (r : UnitDouble) (n : Z) : Z :=
  Z.sgn n * round53 (significand r * Z.abs n).

(* ===================================================================== *)
(** ** Data of the program *)
(* ===================================================================== *)

(** [NETWORK_SETTINGS] (src/index.js, lines 10-19); the payment amount is
    held in wei, as [ethers.utils.parseEther('0.005')] yields it. *)
Module NETWORK_SETTINGS.
Definition chain_id : Z := 1270.
Definition site_key : jsstring := str "0x4AAAAAAA6vnrvBCtS4FAl-".
Definition contract_address : jsstring :=
    str "0xEFeB425135d5cDBEfFA5c9B8C16E81C7833dA02E".
Definition payment_amount_wei : Z := 5000000000000000.
End NETWORK_SETTINGS.

(** A numeric setting as [yaml.load] hands it over: the key may be absent
    ([undefined]), empty ([null]) or an integer. *)
Inductive YamlNum : Type :=
| YAbsent
| YNull
| YInt (n : Z).

(** The fields of [config.yaml] that the program reads. *)
Record Config : Type := {
  private_key_file : jsstring;     (* wallets.private_key_file *)
  api_key : jsstring;              (* captcha.api_key *)
  faucet_enabled : bool;           (* features.faucet_enabled *)
  game_enabled : bool;             (* features.game_enabled *)
  games_per_wallet : YamlNum;      (* general.games_per_wallet *)
  hours_between_runs : Z;          (* general.hours_between_runs *)
  delay_between_claims : Z;        (* faucet.delay_between_claims *)
  min_score : Z;                   (* game.min_score *)
  max_score : Z;                   (* game.max_score *)
  min_play_time : Z;               (* game.min_play_time *)
  max_play_time : Z;               (* game.max_play_time *)
  delay_between_games : Z          (* game.delay_between_games *)
}.

(** What the program uses of an [ethers.Wallet]: its address and its key. *)
Record EthersWallet : Type := {
  w_address : jsstring;
  w_privateKey : jsstring
}.

(** An entry of [this.wallets]: [{ address, privateKey, wallet }]. *)
Record WalletInfo : Type := {
  address : jsstring;
  privateKey : jsstring;
  wallet : EthersWallet
}.

(** [estimateGasParams] *)
Record GasParams : Type := {
  gp_from : jsstring;
  gp_to : jsstring;
  gp_value : Z
}.

(** The transaction [payForGame] builds; amounts are [BigNumber]s, that is
    unbounded integers. *)
Record Transaction : Type := {
  tx_to : jsstring;
  tx_value : Z;
  tx_gasLimit : Z;
  tx_gasPrice : Z;
  tx_nonce : Z;
  tx_chainId : Z
}.

(** A tag of an upload: [{ name, value }]. *)
Record Tag : Type := {
  tag_name : jsstring;
  tag_value : jsstring
}.

Inductive Level : Type := INFO | ERROR.

(** The methods whose invocation and return are observed. *)
Inductive Method : Type :=
| getCaptchaToken_
| claimFaucet_ (walletAddress : jsstring)
| payForGame_ (walletInfo : WalletInfo)
| simulateSnakeGame_
| submitGameScore_ (walletInfo : WalletInfo) (score : Z)
| playGameForWallet_ (walletInfo : WalletInfo).

(** The observable events of a run, each external call with its outcome. *)
Inductive Event : Type :=
| EvLog (lvl : Level) (msg : string)
| EvSleep (ms : Z)
| EvCountdown (hours : Z)
| EvReadFile (path : jsstring) (r : Outcome jsstring)
| EvPost (url : string) (payload : JsVal) (r : Outcome JsVal)
| EvGetTransactionCount (addr : jsstring) (r : Outcome Z)
| EvEstimateGas (p : GasParams) (r : Outcome Z)
| EvGetGasPrice (r : Outcome Z)
| EvSignTransaction (w : EthersWallet) (tx : Transaction) (r : Outcome jsstring)
| EvSendTransaction (signedTx : jsstring) (r : Outcome jsstring)
| EvWait (hash : jsstring) (r : Outcome Z)
| EvRandom (r : UnitDouble)
| EvDateNow (ms : Z)
| EvToISOString (s : jsstring)
| EvWithWallet (key : jsstring) (r : Outcome N)
| EvGetPrice (uploader : N) (size : Z) (r : Outcome Z)
| EvUpload (uploader : N) (data : jsstring) (tags : list Tag) (r : Outcome jsstring)
| EvCall (m : Method)
| EvReturn (m : Method) (v : JsVal).

(* ===================================================================== *)
(** ** The outside world *)
(* ===================================================================== *)

(** The libraries and services the program calls.  [W] is the state of
    everything outside the process; a call answers and moves that state.
    [Throw] is a rejected promise or a thrown exception. *)
Class External (W : Type) : Type := {
  (** [new ethers.Wallet(privateKey, provider)]: no input or output *)
  newWallet : jsstring -> Outcome EthersWallet;
  (** [JSON.stringify] *)
  JSON_stringify : JsVal -> jsstring;
  (** [fs.readFileSync(path, 'utf8')] *)
  readFileSync : jsstring -> W -> Outcome jsstring * W;
  (** [axios.post(url, payload)], answering [response.data] *)
  axios_post : string -> JsVal -> W -> Outcome JsVal * W;
  (** [provider.getTransactionCount(address)] *)
  getTransactionCount : jsstring -> W -> Outcome Z * W;
  (** [provider.estimateGas(params)] *)
  estimateGas : GasParams -> W -> Outcome Z * W;
  (** [provider.getGasPrice()] *)
  getGasPrice : W -> Outcome Z * W;
  (** [wallet.signTransaction(tx)] *)
  signTransaction : EthersWallet -> Transaction -> W -> Outcome jsstring * W;
  (** [provider.sendTransaction(signedTx)], answering [txResponse.hash] *)
  sendTransaction : jsstring -> W -> Outcome jsstring * W;
  (** [txResponse.wait()], answering [receipt.status] *)
  waitReceipt : jsstring -> W -> Outcome Z * W;
  (** [Math.random()] *)
  Math_random : W -> UnitDouble * W;
  Math_random_unit : forall w, isUnitDouble (fst (Math_random w));
  (** [Date.now()] *)
  Date_now : W -> Z * W;
  (** [new Date().toISOString()] *)
  Date_toISOString : W -> jsstring * W;
  (** [Uploader(Ethereum).withWallet(privateKey)], answering a handle *)
  withWallet : jsstring -> W -> Outcome N * W;
  (** [irysUploader.getPrice(size)] *)
  getPrice : N -> Z -> W -> Outcome Z * W;
  (** [irysUploader.upload(data, { tags })], answering [response.id] *)
  upload : N -> jsstring -> list Tag -> W -> Outcome jsstring * W;
  (** the passing of [ms] milliseconds under [setTimeout] *)
  elapse : Z -> W -> W
}.

(* ===================================================================== *)
(** ** The monad of the methods *)
(* ===================================================================== *)

Section Monad.
Context {W : Type}.

(** A run: what a computation answered, the world it left, the events it
    emitted. *)
Definition Run (A : Type) : Type := (Outcome A * W * list Event)%type.

(** A computation answers or throws, moves the world and emits events. *)
Definition M (A : Type) : Type := W -> Run A.

(** A run that comes after the events [t]. *)
Definition after {A} (t : list Event) (x : Run A) : Run A :=
  match x with
  | (r, w, t') => (r, w, t ++ t')
  end.

(** A run followed by the continuation [f]. *)
Definition binding {A B} (f : A -> M B) (x : Run A) : Run B :=
  match x with
  | (Ret a, w1, t1) => after t1 (f a w1)
  | (Throw e, w1, t1) => (Throw e, w1, t1)
  end.

(** A run under the handler [h]. *)
Definition catching {A} (h : JsError -> M A) (x : Run A) : Run A :=
  match x with
  | (Ret a, w1, t1) => (Ret a, w1, t1)
  | (Throw e, w1, t1) => after t1 (h e w1)
  end.

(** The run of a method's body [x] between its call and return events;
    [enc] shows the returned value as a JavaScript value. *)
Definition returning {A} (m : Method) (enc : A -> JsVal) (x : Run A) : Run A :=
  match x with
  | (Ret a, w1, t1) => (Ret a, w1, EvCall m :: t1 ++ [EvReturn m (enc a)])
  | (Throw e, w1, t1) => (Throw e, w1, EvCall m :: t1)
  end.

Definition M_ret {A} (a : A) : M A := fun w => (Ret a, w, []).

Definition M_bind {A B} (m : M A) (f : A -> M B) : M B :=
  fun w => binding f (m w).

Definition M_raise {A} (e : JsError) : M A := fun w => (Throw e, w, []).

(** [try { m } catch (e) { h e }] *)
Definition M_catch {A} (m : M A) (h : JsError -> M A) : M A :=
  fun w => catching h (m w).

#[global] Instance Monad_M : Monad M :=
  {| ret := @M_ret; bind := @M_bind |}.

#[global] Instance Exc_M : MonadExc JsError M :=
  {| raise := @M_raise; catch := @M_catch |}.

Definition emit (e : Event) : M unit := fun w => (Ret tt, w, [e]).

(** An external call that can fail: run it, record it with its outcome. *)
Definition call {A} (op : W -> Outcome A * W) (ev : Outcome A -> Event)
  : M A :=
  fun w => match op w with (r, w1) => (r, w1, [ev r]) end.

(** An external call that cannot fail. *)
Definition ask {A} (op : W -> A * W) (ev : A -> Event) : M A :=
  fun w => match op w with (a, w1) => (Ret a, w1, [ev a]) end.

(** Lifting the outcome of an expression. *)
Definition eval {A} (r : Outcome A) : M A := fun w => (r, w, []).

(** The three projections of a run. *)
Definition result {A} (x : Run A) : Outcome A := fst (fst x).
Definition world {A} (x : Run A) : W := snd (fst x).
Definition events {A} (x : Run A) : list Event := snd x.

End Monad.
Arguments M W A : clear implicits.
Arguments Run W A : clear implicits.
Arguments after {W A} t !x /.
Arguments binding {W A B} f !x /.
Arguments catching {W A} h !x /.
Arguments returning {W A} m enc !x /.

(* ===================================================================== *)
(** ** The methods of [IrysAutomation] *)
(* ===================================================================== *)

(** [gasLimit.mul(110).div(100)]: [BigNumber] division truncates. *)
Definition bufferedGasLimit (gasLimit : Z) : Z := Z.quot (gasLimit * 110) 100.

(** [Math.floor(r * (hi - lo + 1)) + lo], the expression that
    [simulateSnakeGame] evaluates for the score and for the play time. *)
Definition floorRandom (r : UnitDouble) (lo hi : Z) : Z :=
  timesInteger r (hi - lo + 1) / 2 ^ scale r + lo.

(** The [Player-Name] tag of [submitGameScore] (lines 305-307). *)
Definition shortenedAddress (address : jsstring) : jsstring :=
  if startsWith (str "0x") address && (js_length address >? 10)
  then substring address 0 6 ++ str "..."
         ++ substringFrom address (js_length address - 4)
  else address.

(** [config.general.games_per_wallet || 1] (line 409) *)
Definition gamesPerWallet (config : Config) : Z :=
  match games_per_wallet config with
  | YAbsent | YNull => 1
  | YInt n => if n =? 0 then 1 else n
  end.

Definition falsyNum (y : YamlNum) : bool :=
  match y with
  | YAbsent | YNull => true
  | YInt n => n =? 0
  end.

Section Methods.
Context {W : Type} {E : External W}.
Variable config : Config.

(** [logger.info] and [logger.error]; [msg] is the fixed part of the
    message, the interpolated values are left out. *)
Definition log_info (msg : string) : M W unit := emit (EvLog INFO msg).
Definition log_error (msg : string) : M W unit := emit (EvLog ERROR msg).

(** [await new Promise(resolve => setTimeout(resolve, ms))] *)
Definition sleep (ms : Z) : M W unit :=
  fun w => (Ret tt, elapse ms w, [EvSleep ms]).

(** A method whose invocation and return are observed. *)
Definition method {A} (m : Method) (enc : A -> JsVal) (body : M W A) : M W A :=
  fun w => returning m enc (body w).

(** *** loadWallets (lines 73-107) *)

(** The body of [for (const line of lines)]; [wallets] is the array being
    filled.  A throwing [new ethers.Wallet] leaves the loop. *)
Fixpoint loadLines (lines : list jsstring) (wallets : list WalletInfo)
  : Outcome (list WalletInfo) :=
  match lines with
  | [] => Ret wallets
  | line :: rest =>
      let trimmedLine := trim line in
      if negb (truthy (JStr trimmedLine)) || startsWith (str "#") trimmedLine
      then loadLines rest wallets
      else
        let privateKey :=
          if startsWith (str "0x") trimmedLine then trimmedLine
          else str "0x" ++ trimmedLine in
        match newWallet privateKey with
        | Ret wallet =>
            loadLines rest
              (wallets ++ [{| address := w_address wallet;
                              privateKey := privateKey;
                              wallet := wallet |}])
        | Throw e => Throw e
        end
  end.

Definition loadWallets : M W (list WalletInfo) :=
  catch
    (let filePath := private_key_file config in
     fileContents <- call (readFileSync filePath) (EvReadFile filePath) ;;
     let lines := split 10 fileContents in
     wallets <- eval (loadLines lines []) ;;
     log_info "Loaded wallets from private keys" ;;
     ret wallets)
    (fun _ =>
     log_error "Error loading private keys" ;;
     ret []).

(** *** getCaptchaToken (lines 109-169) *)

Definition createTaskUrl : string := "https://api.capsolver.com/createTask".
Definition getTaskResultUrl : string :=
  "https://api.capsolver.com/getTaskResult".
Definition maxAttempts : nat := 15.

Definition createTaskPayload : JsVal :=
  JObj [("clientKey"%string, JStr (api_key config));
        ("task"%string,
         JObj [("type"%string, JStr (str "AntiTurnstileTaskProxyLess"));
               ("websiteURL"%string, JStr (str "https://irys.xyz/faucet"));
               ("websiteKey"%string, JStr NETWORK_SETTINGS.site_key)])].

Definition getResultPayload (taskId : JsVal) : JsVal :=
  JObj [("clientKey"%string, JStr (api_key config));
        ("taskId"%string, taskId)].

(** [while (attempts < maxAttempts) { ... attempts++ }] followed by the
    time-out exit; [remaining] is [maxAttempts - attempts]. *)
Fixpoint pollLoop (remaining : nat) (taskId : JsVal) : M W JsVal :=
  match remaining with
  | O =>
      log_error "Captcha solving timed out" ;;
      ret JNull
  | S remaining' =>
      let payload := getResultPayload taskId in
      data <- call (axios_post getTaskResultUrl payload)
                   (EvPost getTaskResultUrl payload) ;;
      status <- eval (getProp data "status") ;;
      if strictEqStr status (str "ready") then
        log_info "Captcha solution received" ;;
        solution <- eval (getProp data "solution") ;;
        ret (getPropOpt solution "token")
      else if strictEqStr status (str "failed") then
        log_error "Captcha task failed" ;;
        ret JNull
      else
        sleep 2000 ;;
        pollLoop remaining' taskId
  end.

Definition getCaptchaToken : M W JsVal :=
  method getCaptchaToken_ (fun v => v)
    (catch
       (data <- call (axios_post createTaskUrl createTaskPayload)
                     (EvPost createTaskUrl createTaskPayload) ;;
        taskId <- eval (getProp data "taskId") ;;
        if negb (truthy taskId) then
          log_error "Failed to create captcha task" ;;
          ret JNull
        else
          log_info "Created captcha task" ;;
          pollLoop maxAttempts taskId)
       (fun _ =>
        log_error "Error solving captcha" ;;
        ret JNull)).

(** *** claimFaucet (lines 171-208) *)

Definition faucetUrl : string := "https://irys.xyz/api/faucet".

(** [success] is the value of [result && result.success].  The fixed
    request headers are left out of the request event. *)
Definition claimFaucet (walletAddress : jsstring) : M W bool :=
  method (claimFaucet_ walletAddress) JBool
    (captchaToken <- getCaptchaToken ;;
     if negb (truthy captchaToken) then
       log_error "Failed to get captcha token" ;;
       ret false
     else
       let data := JObj [("captchaToken"%string, captchaToken);
                         ("walletAddress"%string, JStr walletAddress)] in
       catch
         (result <- call (axios_post faucetUrl data) (EvPost faucetUrl data) ;;
          success <- (if truthy result then eval (getProp result "success")
                      else ret result) ;;
          if truthy success then
            (* the message reads result.data.transactionHash *)
            d <- eval (getProp result "data") ;;
            _ <- eval (getProp d "transactionHash") ;;
            log_info "Faucet claim successful" ;;
            ret true
          else
            log_error "Failed to claim faucet" ;;
            ret false)
         (fun _ =>
          log_error "Error claiming faucet" ;;
          ret false)).

(** *** payForGame (lines 210-267) *)

Definition payForGame (walletInfo : WalletInfo) : M W JsVal :=
  method (payForGame_ walletInfo) (fun v => v)
    (catch
       (let address := address walletInfo in
        let wallet := wallet walletInfo in
        nonce <- call (getTransactionCount address)
                      (EvGetTransactionCount address) ;;
        let estimateGasParams :=
          {| gp_from := address;
             gp_to := NETWORK_SETTINGS.contract_address;
             gp_value := NETWORK_SETTINGS.payment_amount_wei |} in
        gasLimit <- call (estimateGas estimateGasParams)
                         (EvEstimateGas estimateGasParams) ;;
        gasPrice <- call getGasPrice EvGetGasPrice ;;
        let bufferedGasLimit := bufferedGasLimit gasLimit in
        let tx :=
          {| tx_to := NETWORK_SETTINGS.contract_address;
             tx_value := NETWORK_SETTINGS.payment_amount_wei;
             tx_gasLimit := bufferedGasLimit;
             tx_gasPrice := gasPrice;
             tx_nonce := nonce;
             tx_chainId := NETWORK_SETTINGS.chain_id |} in
        log_info "Gas Details for wallet" ;;
        log_info "- Gas Limit" ;;
        log_info "- Gas Price" ;;
        log_info "- Estimated Total Gas Cost" ;;
        signedTx <- call (signTransaction wallet tx)
                         (EvSignTransaction wallet tx) ;;
        hash <- call (sendTransaction signedTx)
                     (EvSendTransaction signedTx) ;;
        log_info "Payment transaction sent" ;;
        status <- call (waitReceipt hash) (EvWait hash) ;;
        if status =? 1 then
          log_info "Payment confirmed for wallet" ;;
          ret (JStr hash)
        else
          log_error "Payment failed for wallet" ;;
          ret JNull)
       (fun _ =>
        log_error "Error paying for game" ;;
        ret JNull)).

(** *** simulateSnakeGame (lines 269-286) *)

Definition simulateSnakeGame : M W Z :=
  method simulateSnakeGame_ JNum
    (let minScore := min_score config in
     let maxScore := max_score config in
     r1 <- ask Math_random EvRandom ;;
     let score := floorRandom r1 minScore maxScore in
     let minPlayTime := min_play_time config in
     let maxPlayTime := max_play_time config in
     r2 <- ask Math_random EvRandom ;;
     let gameTime := floorRandom r2 minPlayTime maxPlayTime in
     log_info "Simulating Snake game" ;;
     sleep (gameTime * 1000) ;;
     ret score).

(** *** submitGameScore (lines 288-343) *)

Definition scoreTags (address : jsstring) (score timestamp : Z) : list Tag :=
  [ {| tag_name := str "Content-Type"; tag_value := str "application/json" |};
    {| tag_name := str "Application-Id"; tag_value := str "Irys-Arcade" |};
    {| tag_name := str "Score-Entry"; tag_value := str "true" |};
    {| tag_name := str "Game-Name"; tag_value := str "snake" |};
    {| tag_name := str "Player-Wallet"; tag_value := address |};
    {| tag_name := str "Player-Name"; tag_value := shortenedAddress address |};
    {| tag_name := str "Score"; tag_value := Z_toString score |};
    {| tag_name := str "Game-Version"; tag_value := str "1.0" |};
    {| tag_name := str "Timestamp"; tag_value := Z_toString timestamp |} ].

Definition scoreRecord (score : Z) (date : jsstring) : JsVal :=
  JObj [("game"%string, JStr (str "snake"));
        ("score"%string, JNum score);
        ("date"%string, JStr date)].

Definition submitGameScore (walletInfo : WalletInfo) (score : Z) : M W bool :=
  method (submitGameScore_ walletInfo score) JBool
    (catch
       (let address := address walletInfo in
        let privateKey := privateKey walletInfo in
        log_info "Initializing Irys uploader" ;;
        irysUploader <- call (withWallet privateKey)
                             (EvWithWallet privateKey) ;;
        timestamp <- ask Date_now EvDateNow ;;
        date <- ask Date_toISOString EvToISOString ;;
        let scoreData := JSON_stringify (scoreRecord score date) in
        let tags := scoreTags address score timestamp in
        log_info "Preparing to upload score" ;;
        catch
          (let dataSize := utf8ByteLength scoreData in
           price <- call (getPrice irysUploader dataSize)
                         (EvGetPrice irysUploader dataSize) ;;
           log_info "Price for uploading score" ;;
           txId <- call (upload irysUploader scoreData tags)
                        (EvUpload irysUploader scoreData tags) ;;
           log_info "Score successfully submitted" ;;
           ret true)
          (fun _ =>
           log_error "Error during Irys upload" ;;
           ret false))
       (fun _ =>
        log_error "Error submitting game score" ;;
        ret false)).

(** *** playGameForWallet (lines 345-376) *)

(** The settle delay after the payment, in milliseconds. *)
Definition settleDelay : Z := 5000.

(** The [catch] block reads [address], which is declared by [const] inside
    the [try] block and is out of scope there: evaluating its message
    throws a [ReferenceError]. *)
Definition playGameForWallet (walletInfo : WalletInfo) : M W bool :=
  method (playGameForWallet_ walletInfo) JBool
    (catch
       (log_info "Starting game cycle for wallet" ;;
        paymentTx <- payForGame walletInfo ;;
        if negb (truthy paymentTx) then
          log_error "Failed to pay for game for wallet" ;;
          ret false
        else
          sleep settleDelay ;;
          score <- simulateSnakeGame ;;
          submitted <- submitGameScore walletInfo score ;;
          if submitted then
            log_info "Game cycle completed successfully" ;;
            ret true
          else
            log_error "Failed to submit score for wallet" ;;
            ret false)
       (fun _ => raise ReferenceError)).

(** *** countdown (lines 378-403) *)

Definition countdown (hours : Z) : M W unit :=
  fun w => (Ret tt, elapse (hours * 3600 * 1000) w, [EvCountdown hours]).

(** *** run (lines 405-473) *)

(** [for (let gameNum = 1; gameNum <= gamesPerWallet; gameNum++)];
    [remaining] counts the values of [gameNum] from the current one up to
    [gamesPerWallet].  The result is [gameSuccesses]. *)
Fixpoint gameLoop (remaining : nat) (gameNum : Z) (wallet : WalletInfo)
  (gameSuccesses : Z) : M W Z :=
  match remaining with
  | O => ret gameSuccesses
  | S remaining' =>
      log_info "Starting game for wallet" ;;
      gameCompleted <- playGameForWallet wallet ;;
      if gameCompleted then
        (if gameNum <? gamesPerWallet config
         then sleep (delay_between_games config * 1000)
         else ret tt) ;;
        gameLoop remaining' (gameNum + 1) wallet (gameSuccesses + 1)
      else
        log_error "Game failed for wallet" ;;
        ret gameSuccesses
  end.

(** The body of [for (let i = 0; i < this.wallets.length; i++)]; the
    counters are [(faucetSuccesses, gameSuccesses)]. *)
Definition processWallet (wallet : WalletInfo) (counters : Z * Z)
  : M W (Z * Z) :=
  let runFaucet := faucet_enabled config in
  let runGame := game_enabled config in
  let address := address wallet in
  log_info "Processing wallet" ;;
  faucetSuccesses <-
    (if runFaucet then
       log_info "Attempting faucet claim" ;;
       faucetClaimed <- claimFaucet address ;;
       if faucetClaimed then
         sleep (delay_between_claims config * 1000) ;;
         ret (fst counters + 1)
       else ret (fst counters)
     else ret (fst counters)) ;;
  gameSuccesses <-
    (if runGame then
       log_info "Starting games for wallet" ;;
       gameLoop (Z.to_nat (gamesPerWallet config)) 1 wallet (snd counters)
     else ret (snd counters)) ;;
  ret (faucetSuccesses, gameSuccesses).

Fixpoint processWallets (wallets : list WalletInfo) (counters : Z * Z)
  : M W (Z * Z) :=
  match wallets with
  | [] => ret counters
  | wallet :: rest =>
      counters' <- processWallet wallet counters ;;
      processWallets rest counters'
  end.

(** One turn of [while (true)]. *)
Definition runCycle (wallets : list WalletInfo) : M W (Z * Z) :=
  counters <- processWallets wallets (0, 0) ;;
  (if faucet_enabled config then log_info "Faucet claims completed"
   else ret tt) ;;
  (if game_enabled config then log_info "Games completed" else ret tt) ;;
  let waitHours := hours_between_runs config in
  log_info "Run completed" ;;
  countdown waitHours ;;
  ret counters.

(** The first [cycles] turns of [run], whose loop has no exit. *)
Fixpoint run (cycles : nat) (wallets : list WalletInfo) : M W unit :=
  match cycles with
  | O => ret tt
  | S cycles' => runCycle wallets ;; run cycles' wallets
  end.

End Methods.

(* ===================================================================== *)
(** ** Traces and the specification's words *)
(* ===================================================================== *)

(** The network side of a trace: requests and timed waits. *)
Definition isNet (e : Event) : bool :=
  match e with
  | EvPost _ _ _ | EvSleep _ => true
  | _ => false
  end.
Definition net (t : list Event) : list Event := filter isNet t.

(** The result-polls of the captcha solver in a trace. *)
Definition isPoll (e : Event) : bool :=
  match e with
  | EvPost url _ _ => String.eqb url getTaskResultUrl
  | _ => false
  end.
Definition polls (t : list Event) : nat := List.length (filter isPoll t).

Section CaptchaSpec.
Variable config : Config.

(** The polling protocol in the words of the specification: [n] polls
    have been made; a poll answers [ready] (the token is returned),
    [failed] or an unusable answer (no token), or anything else (wait two
    seconds, poll again); after fifteen polls the solver times out. *)
Inductive Polling (taskId : JsVal) : nat -> list Event -> JsVal -> Prop :=
| poll_ready n data status solution :
    (n < 15)%nat ->
    getProp data "status" = Ret status ->
    strictEqStr status (str "ready") = true ->
    getProp data "solution" = Ret solution ->
    Polling taskId n
      [EvPost getTaskResultUrl (getResultPayload config taskId) (Ret data)]
      (getPropOpt solution "token")
| poll_failed n data status :
    (n < 15)%nat ->
    getProp data "status" = Ret status ->
    strictEqStr status (str "ready") = false ->
    strictEqStr status (str "failed") = true ->
    Polling taskId n
      [EvPost getTaskResultUrl (getResultPayload config taskId) (Ret data)]
      JNull
| poll_error n r :
    (n < 15)%nat ->
    (forall data, r = Ret data -> exists e, getProp data "status" = Throw e) ->
    Polling taskId n
      [EvPost getTaskResultUrl (getResultPayload config taskId) r]
      JNull
| poll_again n data status t v :
    (n < 15)%nat ->
    getProp data "status" = Ret status ->
    strictEqStr status (str "ready") = false ->
    strictEqStr status (str "failed") = false ->
    Polling taskId (S n) t v ->
    Polling taskId n
      (EvPost getTaskResultUrl (getResultPayload config taskId) (Ret data)
         :: EvSleep 2000 :: t)
      v
| poll_timeout :
    Polling taskId 15 [] JNull.

(** The whole operation: the task is created, then polled. *)
Inductive Solving : list Event -> JsVal -> Prop :=
| solve_not_created r :
    (forall data, r = Ret data ->
       (exists e, getProp data "taskId" = Throw e) \/
       (exists taskId, getProp data "taskId" = Ret taskId /\
                       truthy taskId = false)) ->
    Solving [EvPost createTaskUrl (createTaskPayload config) r] JNull
| solve_created data taskId t v :
    getProp data "taskId" = Ret taskId ->
    truthy taskId = true ->
    Polling taskId 0 t v ->
    Solving (EvPost createTaskUrl (createTaskPayload config) (Ret data) :: t) v.

End CaptchaSpec.

(** What the [catch] of [getCaptchaToken] makes of an outcome. *)
Definition settled (r : Outcome JsVal) : JsVal :=
  match r with
  | Ret v => v
  | Throw _ => JNull
  end.

(** The formula of the score in the words of the specification, in exact
    arithmetic: [floor (r * (hi - lo + 1)) + lo]. *)
Definition floorRandomExact (r : Q) (lo hi : Z) : Z :=
  Qfloor (r * inject_Z (hi - lo + 1)) + lo.

(** The control side of a trace: method calls, returns and timed waits. *)
Definition isControl (e : Event) : bool :=
  match e with
  | EvCall _ | EvReturn _ _ | EvSleep _ => true
  | _ => false
  end.
Definition control (t : list Event) : list Event := filter isControl t.

(** The calls and returns of [playGameForWallet] in a trace. *)
Definition isGame (e : Event) : bool :=
  match e with
  | EvCall (playGameForWallet_ _) | EvReturn (playGameForWallet_ _) _ => true
  | _ => false
  end.
Definition games (t : list Event) : list Event := filter isGame t.

(** A wallet's game iterations in one cycle, in the words of the
    specification, as the calls and returns of [playGameForWallet]: with
    [n] iterations left, an iteration that completes is followed by the
    remaining ones, an iteration that fails is the last one. *)
Inductive FailFast (wallet : WalletInfo) : nat -> list Event -> Prop :=
| ff_none :
    FailFast wallet 0 []
| ff_completed n t :
    FailFast wallet n t ->
    FailFast wallet (S n)
      (EvCall (playGameForWallet_ wallet)
         :: EvReturn (playGameForWallet_ wallet) (JBool true) :: t)
| ff_failed n :
    FailFast wallet (S n)
      [EvCall (playGameForWallet_ wallet);
       EvReturn (playGameForWallet_ wallet) (JBool false)].

(** The number of game iterations the scheduler plans for each wallet. *)
Definition plannedGames (config : Config) : nat :=
  if game_enabled config then Z.to_nat (gamesPerWallet config) else 0%nat.

(** One game iteration for each wallet, in list order, with the given
    outcomes. *)
Definition oneGameEach (wallets : list WalletInfo) (outcomes : list bool)
  : list Event :=
  flat_map (fun wb : WalletInfo * bool =>
              [EvCall (playGameForWallet_ (fst wb));
               EvReturn (playGameForWallet_ (fst wb)) (JBool (snd wb))])
           (combine wallets outcomes).

(** The storage side of a trace: the uploader, the clock readings that go
    into the record, the price query and the upload. *)
Definition isStorage (e : Event) : bool :=
  match e with
  | EvWithWallet _ _ | EvDateNow _ | EvToISOString _
  | EvGetPrice _ _ _ | EvUpload _ _ _ _ => true
  | _ => false
  end.
Definition storage (t : list Event) : list Event := filter isStorage t.

(** An awaited call that did not throw. *)
Definition completed {A} (r : Outcome A) : bool :=
  match r with
  | Ret _ => true
  | Throw _ => false
  end.


Section PublishSpec.
Context {W : Type} {E : External W}.

(** Publishing a score in the words of the specification, against the
    storage side of the trace: the price is asked for the size of the
    payload, whatever price is quoted the payload is uploaded with its
    tags, and the outcome is the success of the upload call; an error at
    an earlier step is a failure. *)
Inductive Publishing (walletInfo : WalletInfo) (score : Z)
  : list Event -> bool -> Prop :=
| pub_no_uploader e :
    Publishing walletInfo score
      [EvWithWallet (privateKey walletInfo) (Throw e)] false
| pub_no_price uploader timestamp date e :
    Publishing walletInfo score
      [EvWithWallet (privateKey walletInfo) (Ret uploader);
       EvDateNow timestamp; EvToISOString date;
       EvGetPrice uploader
         (utf8ByteLength (JSON_stringify (scoreRecord score date)))
         (Throw e)]
      false
| pub_upload uploader timestamp date price r :
    Publishing walletInfo score
      [EvWithWallet (privateKey walletInfo) (Ret uploader);
       EvDateNow timestamp; EvToISOString date;
       EvGetPrice uploader
         (utf8ByteLength (JSON_stringify (scoreRecord score date)))
         (Ret price);
       EvUpload uploader (JSON_stringify (scoreRecord score date))
         (scoreTags (address walletInfo) score timestamp) r]
      (completed r).

End PublishSpec.

(** What the faucet's answer must carry for [claimFaucet] to report
    success: a truthy [success] field and a [data] field that is neither
    [null] nor [undefined]. *)
Definition faucetAccepts (body : JsVal) : bool :=
  truthy (getPropOpt body "success")
  && negb (isNullish (getPropOpt body "data")).

(** The request body of the faucet. *)
Definition faucetRequest (captchaToken : JsVal) (walletAddress : jsstring)
  : JsVal :=
  JObj [("captchaToken"%string, captchaToken);
        ("walletAddress"%string, JStr walletAddress)].

(** The key a line of the key file stands for: none for a blank line or a
    comment, else the trimmed line with ["0x"] in front when missing. *)
Definition keyOfLine (line : jsstring) : option jsstring :=
  let trimmedLine := trim line in
  match trimmedLine with
  | [] => None
  | _ =>
      if startsWith (str "#") trimmedLine then None
      else if startsWith (str "0x") trimmedLine then Some trimmedLine
      else Some (str "0x" ++ trimmedLine)
  end.

(** The keys of a file, in file order. *)
Definition candidateKeys (lines : list jsstring) : list jsstring :=
  flat_map (fun line => match keyOfLine line with
                        | Some k => [k]
                        | None => []
                        end) lines.

Section WalletSpec.
Context {W : Type} {E : External W}.

(** The entry of [this.wallets] for a key, when the key derives a wallet. *)
Definition walletEntry (key : jsstring) : option WalletInfo :=
  match newWallet key with
  | Ret wallet => Some {| address := w_address wallet;
                          privateKey := key;
                          wallet := wallet |}
  | Throw _ => None
  end.

(** The wallets of the lines whose key derivation succeeds, in file
    order: the list the specification promises. *)
Definition validLineWallets (lines : list jsstring) : list WalletInfo :=
  flat_map (fun key => match walletEntry key with
                       | Some entry => [entry]
                       | None => []
                       end) (candidateKeys lines).

(** Whether every key of the file derives a wallet. *)
Definition allDerive (lines : list jsstring) : bool :=
  forallb (fun key => match walletEntry key with
                      | Some _ => true
                      | None => false
                      end) (candidateKeys lines).

End WalletSpec.

(* ===================================================================== *)
(** ** More traces: the chain, the scheduler, the start of the process *)
(* ===================================================================== *)

(** The chain side of a trace: the calls of the provider and the signer. *)
Definition isChain (e : Event) : bool :=
  match e with
  | EvGetTransactionCount _ _ | EvEstimateGas _ _ | EvGetGasPrice _
  | EvSignTransaction _ _ _ | EvSendTransaction _ _ | EvWait _ _ => true
  | _ => false
  end.
Definition chain (t : list Event) : list Event := filter isChain t.

(** Whether the external call behind an event answered; an event that is
    no fallible call counts as answered. *)
Definition answered (e : Event) : bool :=
  match e with
  | EvReadFile _ r => completed r
  | EvPost _ _ r => completed r
  | EvGetTransactionCount _ r => completed r
  | EvEstimateGas _ r => completed r
  | EvGetGasPrice r => completed r
  | EvSignTransaction _ _ r => completed r
  | EvSendTransaction _ r => completed r
  | EvWait _ r => completed r
  | EvWithWallet _ r => completed r
  | EvGetPrice _ _ r => completed r
  | EvUpload _ _ _ r => completed r
  | _ => true
  end.

Definition isSend (e : Event) : bool :=
  match e with
  | EvSendTransaction _ _ => true
  | _ => false
  end.

Definition isUpload (e : Event) : bool :=
  match e with
  | EvUpload _ _ _ _ => true
  | _ => false
  end.

(** The text an awaited call answered, empty when it threw. *)
Definition settledText (r : Outcome jsstring) : jsstring :=
  match r with
  | Ret s => s
  | Throw _ => []
  end.

(** The time a trace spends in timed waits, in milliseconds. *)
Fixpoint waited (t : list Event) : Z :=
  match t with
  | [] => 0
  | EvSleep ms :: rest => ms + waited rest
  | _ :: rest => waited rest
  end.

(** The longest time one game iteration and one wallet's turn spend in
    timed waits, in milliseconds: the settle delay, the play time and the
    delay between games; the waits of the captcha polls and the delay
    after a claim. *)
Definition gameBudget (config : Config) : Z :=
  settleDelay + max_play_time config * 1000
  + delay_between_games config * 1000.

Definition walletBudget (config : Config) : Z :=
  (if faucet_enabled config
   then 30000 + delay_between_claims config * 1000 else 0)
  + Z.of_nat (plannedGames config) * gameBudget config.

(** The task creations of the captcha solver in a trace. *)
Definition isCreate (e : Event) : bool :=
  match e with
  | EvPost url _ _ => String.eqb url createTaskUrl
  | _ => false
  end.

(** What a faucet claim does inside: requests to the captcha service and
    to the faucet, the two-second waits between polls, log lines and the
    call of the captcha step. *)
Definition faucetSide (e : Event) : bool :=
  match e with
  | EvPost url _ _ =>
      String.eqb url createTaskUrl || String.eqb url getTaskResultUrl
      || String.eqb url faucetUrl
  | EvSleep ms => ms =? 2000
  | EvLog _ _ => true
  | EvCall getCaptchaToken_ | EvReturn getCaptchaToken_ _ => true
  | _ => false
  end.

(** What a game iteration does inside: calls of the chain and of the
    storage network, readings of the clock and of the random source,
    waits, log lines and the calls of its three steps. *)
Definition gameSide (e : Event) : bool :=
  match e with
  | EvRandom _ | EvSleep _ | EvLog _ _ => true
  | EvCall (payForGame_ _) | EvReturn (payForGame_ _) _ => true
  | EvCall simulateSnakeGame_ | EvReturn simulateSnakeGame_ _ => true
  | EvCall (submitGameScore_ _ _) | EvReturn (submitGameScore_ _ _) _ => true
  | _ => isChain e || isStorage e
  end.

(** The calls and returns of [claimFaucet] in a trace. *)
Definition isClaim (e : Event) : bool :=
  match e with
  | EvCall (claimFaucet_ _) | EvReturn (claimFaucet_ _) _ => true
  | _ => false
  end.

(** The scheduler's own calls in a trace: the calls and returns of
    [claimFaucet] and of [playGameForWallet]. *)
Definition isTurn (e : Event) : bool := isClaim e || isGame e.
Definition turns (t : list Event) : list Event := filter isTurn t.

(** The claims and the game iterations of a trace that returned [true]. *)
Definition isClaimed (e : Event) : bool :=
  match e with
  | EvReturn (claimFaucet_ _) (JBool true) => true
  | _ => false
  end.
Definition isWon (e : Event) : bool :=
  match e with
  | EvReturn (playGameForWallet_ _) (JBool true) => true
  | _ => false
  end.
Definition count (p : Event -> bool) (t : list Event) : Z :=
  Z.of_nat (List.length (filter p t)).

(** What the wallets' turns of a cycle are made of. *)
Definition workSide (e : Event) : bool :=
  faucetSide e || gameSide e || isTurn e.

(** The long waits between cycles in a trace. *)
Definition isCountdown (e : Event) : bool :=
  match e with
  | EvCountdown _ => true
  | _ => false
  end.

Section SchedulerSpec.
Variable config : Config.

(** What the scheduler does for one wallet in one cycle: with the faucet
    enabled one claim, whatever its result; then the wallet's fail-fast
    run of game iterations. *)
Inductive WalletTurn (wallet : WalletInfo) : list Event -> Prop :=
| turn_claim_then_games b g :
    faucet_enabled config = true ->
    FailFast wallet (plannedGames config) g ->
    WalletTurn wallet
      (EvCall (claimFaucet_ (address wallet))
         :: EvReturn (claimFaucet_ (address wallet)) (JBool b) :: g)
| turn_games_only g :
    faucet_enabled config = false ->
    FailFast wallet (plannedGames config) g ->
    WalletTurn wallet g.

End SchedulerSpec.

(** A line with white space put around it, a carriage return at its end
    for one. *)
Definition padded (line line' : jsstring) : Prop :=
  exists before after,
    forallb isWhiteSpace before = true /\
    forallb isWhiteSpace after = true /\
    line' = before ++ line ++ after.

Section WalletEntries.
Context {W : Type} {E : External W}.

(** An entry of [this.wallets] whose three fields belong together. *)
Definition consistentEntry (entry : WalletInfo) : Prop :=
  startsWith (str "0x") (privateKey entry) = true /\
  newWallet (privateKey entry) = Ret (wallet entry) /\
  address entry = w_address (wallet entry).

End WalletEntries.

(* ===================================================================== *)
(** ** The countdown line and the start of the process *)
(* ===================================================================== *)

(** [s.padStart(targetLength, fill)] for a fill of one code unit. *)
Definition padStart (targetLength : Z) (fill : N) (s : jsstring) : jsstring :=
  repeat fill (Z.to_nat (targetLength - js_length s)) ++ s.

(** The text that [countdown] shows at time [now] before [endTime], both
    in milliseconds (lines 394-398). *)
Definition timer (endTime now : Z) : jsstring :=
  let remaining := (endTime - now) / 1000 in
  let hours := remaining / 3600 in
  let minutes := Z.rem remaining 3600 / 60 in
  let seconds := Z.rem remaining 60 in
  padStart 2 48 (Z_toString hours) ++ str ":"
    ++ padStart 2 48 (Z_toString minutes) ++ str ":"
    ++ padStart 2 48 (Z_toString seconds).

(** Reading a clock text [HH:MM:SS] as a number of seconds. *)
Definition digit (c : N) : option Z :=
  if ((48 <=? c) && (c <=? 57))%N then Some (Z.of_N c - 48) else None.

Definition twoDigits (a b : N) : option Z :=
  match digit a, digit b with
  | Some x, Some y => Some (10 * x + y)
  | _, _ => None
  end.

Definition readClock (text : jsstring) : option Z :=
  match text with
  | [h1; h2; 58%N; m1; m2; 58%N; s1; s2] =>
      match twoDigits h1 h2, twoDigits m1 m2, twoDigits s1 s2 with
      | Some h, Some m, Some s =>
          if (m <? 60) && (s <? 60) then Some (h * 3600 + m * 60 + s)
          else None
      | _, _, _ => None
      end
  | _ => None
  end.

Section Startup.
Context {W : Type} {E : External W}.

(** [yaml.load]: it throws on a malformed document, answers no mapping
    for an empty one ([None]), and else the configuration. *)
Variable yaml_load : jsstring -> Outcome (option Config).

(** *** loadConfig (lines 61-71) *)

Definition loadConfig (configPath : jsstring) : M W (option Config) :=
  catch
    (fileContents <- call (readFileSync configPath) (EvReadFile configPath) ;;
     config <- eval (yaml_load fileContents) ;;
     log_info "Configuration loaded" ;;
     ret config)
    (fun error =>
     log_error "Error loading configuration" ;;
     raise error).

(** *** constructor (lines 49-59) *)

(** The provider and the payment amount are built without input or
    output.  Without a configuration, [this.config.wallets] throws inside
    the [try] of [loadWallets], whose [catch] answers the empty list. *)
Definition construct : M W (option Config * list WalletInfo) :=
  config <- loadConfig (str "config.yaml") ;;
  wallets <- match config with
             | Some config => loadWallets config
             | None =>
                 log_error "Error loading private keys" ;;
                 ret []
             end ;;
  ret (config, wallets).

(** *** main (lines 477-485) *)

(** The first [cycles] turns of the process; the answer is the exit code
    when the process has exited.  Without a configuration, the first turn
    of [run] throws on [this.config.features]. *)
Definition main (cycles : nat) : M W (option Z) :=
  catch
    (automation <- construct ;;
     match fst automation with
     | Some config => run config cycles (snd automation)
     | None => raise TypeError
     end ;;
     ret None)
    (fun _ =>
     log_error "Critical error in main process" ;;
     ret (Some 1)).

(** The configuration the process starts with, when it gets one. *)
Definition startConfig (w : W) : option Config :=
  match fst (readFileSync (str "config.yaml") w) with
  | Ret fileContents =>
      match yaml_load fileContents with
      | Ret (Some config) => Some config
      | _ => None
      end
  | Throw _ => None
  end.

End Startup.

(** The events of a process that works for no wallet. *)
Definition idleSide (e : Event) : bool :=
  match e with
  | EvLog _ _ | EvCountdown _ | EvReadFile _ _ => true
  | _ => false
  end.

(* ===================================================================== *)
(** ** A scripted outside world *)
(* ===================================================================== *)

(** A world whose answers are written down in advance, for running the
    methods on concrete inputs.  Services that are called several times in
    one run answer from a queue; an exhausted queue answers with an error. *)
Module Scripted.

Record World : Type := {
  file : Outcome jsstring;             (* the key file *)
  posts : list (Outcome JsVal);        (* answers of axios.post, in order *)
  nonce : Outcome Z;
  gasEstimate : Outcome Z;
  gasPrice : Outcome Z;
  signed : Outcome jsstring;
  sent : Outcome jsstring;
  receipts : list (Outcome Z);         (* receipt statuses, in order *)
  randoms : list (Z * Z);              (* draws [m / 2 ^ k], in order *)
  clock : Z;
  uploader : Outcome N;
  price : Outcome Z;
  uploads : list (Outcome jsstring);   (* upload ids, in order *)
}.

Definition noAnswer {A} : Outcome A := Throw (ExternalError "no answer").

Definition isHexDigit (c : N) : bool :=
  (((48 <=? c) && (c <=? 57)) || ((65 <=? c) && (c <=? 70))
   || ((97 <=? c) && (c <=? 102)))%N.

(** A stand-in for [new ethers.Wallet]: it accepts the keys that ethers
    accepts by their form, ["0x"] and 64 hexadecimal digits, and rejects
    every other string; the address it answers is not the one ethers
    derives (that needs secp256k1 and Keccak-256) but the last 40 digits
    of the key. *)
Definition scriptedWallet (privateKey : jsstring) : Outcome EthersWallet :=
  if startsWith (str "0x") privateKey
     && (List.length privateKey =? 66)%nat
     && forallb isHexDigit (skipn 2 privateKey)
  then Ret {| w_address := str "0x" ++ skipn 26 privateKey;
              w_privateKey := privateKey |}
  else Throw (ExternalError "invalid private key").

(** The double quote. *)
Definition quote : jsstring := [34%N].

(** A stand-in for [JSON.stringify], right on values whose strings need
    no escaping. *)
Fixpoint stringify (v : JsVal) : jsstring :=
  match v with
  | JUndefined | JNull => str "null"
  | JBool true => str "true"
  | JBool false => str "false"
  | JNum z => Z_toString z
  | JStr s => quote ++ s ++ quote
  | JArr items =>
      str "[" ++
      (fix elems (l : list JsVal) : jsstring :=
         match l with
         | [] => []
         | [x] => stringify x
         | x :: r => stringify x ++ str "," ++ elems r
         end) items ++ str "]"
  | JObj fields =>
      str "{" ++
      (fix members (l : list (string * JsVal)) : jsstring :=
         match l with
         | [] => []
         | [(k, x)] => quote ++ str k ++ quote ++ str ":" ++ stringify x
         | (k, x) :: r =>
             quote ++ str k ++ quote ++ str ":" ++ stringify x ++ str ","
               ++ members r
         end) fields ++ str "}"
  end.

Definition popPost (w : World) : Outcome JsVal * World :=
  match posts w with
  | [] => (noAnswer, w)
  | r :: rest =>
      (r, {| file := file w; posts := rest; nonce := nonce w;
             gasEstimate := gasEstimate w; gasPrice := gasPrice w;
             signed := signed w; sent := sent w; receipts := receipts w;
             randoms := randoms w; clock := clock w; uploader := uploader w;
             price := price w; uploads := uploads w |})
  end.

Definition popReceipt (w : World) : Outcome Z * World :=
  match receipts w with
  | [] => (noAnswer, w)
  | r :: rest =>
      (r, {| file := file w; posts := posts w; nonce := nonce w;
             gasEstimate := gasEstimate w; gasPrice := gasPrice w;
             signed := signed w; sent := sent w; receipts := rest;
             randoms := randoms w; clock := clock w; uploader := uploader w;
             price := price w; uploads := uploads w |})
  end.

Definition popUpload (w : World) : Outcome jsstring * World :=
  match uploads w with
  | [] => (noAnswer, w)
  | r :: rest =>
      (r, {| file := file w; posts := posts w; nonce := nonce w;
             gasEstimate := gasEstimate w; gasPrice := gasPrice w;
             signed := signed w; sent := sent w; receipts := receipts w;
             randoms := randoms w; clock := clock w; uploader := uploader w;
             price := price w; uploads := rest |})
  end.

(** The draw [m / 2 ^ k], brought into [[0, 1)] and into binary64. *)
Definition draw (mk : Z * Z) : UnitDouble :=
  let k := Z.min (Z.max (snd mk) 0) 1074 in
  {| significand := fst mk mod 2 ^ Z.min k 53; scale := k |}.

Definition popRandom (w : World) : UnitDouble * World :=
  match randoms w with
  | [] => ({| significand := 0; scale := 0 |}, w)
  | mk :: rest =>
      (draw mk,
       {| file := file w; posts := posts w; nonce := nonce w;
          gasEstimate := gasEstimate w; gasPrice := gasPrice w;
          signed := signed w; sent := sent w; receipts := receipts w;
          randoms := rest; clock := clock w; uploader := uploader w;
          price := price w; uploads := uploads w |})
  end.

Definition tick (ms : Z) (w : World) : World :=
  {| file := file w; posts := posts w; nonce := nonce w;
     gasEstimate := gasEstimate w; gasPrice := gasPrice w;
     signed := signed w; sent := sent w; receipts := receipts w;
     randoms := randoms w; clock := clock w + ms; uploader := uploader w;
     price := price w; uploads := uploads w |}.

Lemma popRandom_unit (w : World) : isUnitDouble (fst (popRandom w)).
Proof.
  unfold popRandom, isUnitDouble.
  destruct (randoms w) as [|[m k] rest]; cbn [fst snd draw significand scale].
  - cbn. lia.
  - set (k' := Z.min (Z.max k 0) 1074).
    assert (Hk : 0 <= k' <= 1074) by (unfold k'; lia).
    assert (Hpos : 0 < 2 ^ Z.min k' 53) by (apply Z.pow_pos_nonneg; lia).
    pose proof (Z.mod_pos_bound m (2 ^ Z.min k' 53) Hpos) as Hm.
    assert (H53 : 2 ^ Z.min k' 53 <= 2 ^ 53)
      by (apply Z.pow_le_mono_r; lia).
    assert (Hk' : 2 ^ Z.min k' 53 <= 2 ^ k')
      by (apply Z.pow_le_mono_r; lia).
    lia.
Qed.

#[export] Instance external : External World := {|
  newWallet := scriptedWallet;
  JSON_stringify := stringify;
  readFileSync := fun _ w => (file w, w);
  axios_post := fun _ _ w => popPost w;
  getTransactionCount := fun _ w => (nonce w, w);
  estimateGas := fun _ w => (gasEstimate w, w);
  getGasPrice := fun w => (gasPrice w, w);
  signTransaction := fun _ _ w => (signed w, w);
  sendTransaction := fun _ w => (sent w, w);
  waitReceipt := fun _ w => popReceipt w;
  Math_random := popRandom;
  Math_random_unit := popRandom_unit;
  Date_now := fun w => (clock w, w);
  Date_toISOString := fun w => (str "2025-01-01T00:00:00.000Z", w);
  withWallet := fun _ w => (uploader w, w);
  getPrice := fun _ _ w => (price w, w);
  upload := fun _ _ _ w => popUpload w;
  elapse := tick
|}.

(** *** Sample data *)

Definition sampleConfig : Config := {|
  private_key_file := str "pk.txt";
  api_key := str "CAP-KEY";
  faucet_enabled := true;
  game_enabled := true;
  games_per_wallet := YAbsent;
  hours_between_runs := 25;
  delay_between_claims := 5;
  min_score := 10;
  max_score := 20;
  min_play_time := 1;
  max_play_time := 3;
  delay_between_games := 7
|}.

Definition aliceKey : jsstring :=
  str "0x1111111111111111111111111111111111111111111111111111111111111111".
Definition bobKey : jsstring :=
  str "0x2222222222222222222222222222222222222222222222222222222222222222".

Definition walletOf (key : jsstring) : WalletInfo :=
  {| address := str "0x" ++ skipn 26 key;
     privateKey := key;
     wallet := {| w_address := str "0x" ++ skipn 26 key;
                  w_privateKey := key |} |}.

Definition alice : WalletInfo := walletOf aliceKey.
Definition bob : WalletInfo := walletOf bobKey.

Definition newline : jsstring := [10%N].

(** A world in which the chain and the storage network answer well and
    nothing answers HTTP requests. *)
Definition calm : World := {|
  file := Ret (aliceKey ++ newline ++ bobKey);
  posts := [];
  nonce := Ret 7;
  gasEstimate := Ret 100000;
  gasPrice := Ret 1000000000;
  signed := Ret (str "0xf86b");
  sent := Ret (str "0xabc");
  receipts := [Ret 1];
  randoms := [(1, 1); (9, 4)];
  clock := 1700000000000;
  uploader := Ret 1%N;
  price := Ret 42;
  uploads := [Ret (str "upload-1")]
|}.

Definition withFile (contents : jsstring) (w : World) : World :=
  {| file := Ret contents; posts := posts w; nonce := nonce w;
     gasEstimate := gasEstimate w; gasPrice := gasPrice w;
     signed := signed w; sent := sent w; receipts := receipts w;
     randoms := randoms w; clock := clock w; uploader := uploader w;
     price := price w; uploads := uploads w |}.

Definition withPosts (answers : list (Outcome JsVal)) (w : World) : World :=
  {| file := file w; posts := answers; nonce := nonce w;
     gasEstimate := gasEstimate w; gasPrice := gasPrice w;
     signed := signed w; sent := sent w; receipts := receipts w;
     randoms := randoms w; clock := clock w; uploader := uploader w;
     price := price w; uploads := uploads w |}.

(** Answers of the captcha service. *)
Definition taskCreated : Outcome JsVal :=
  Ret (JObj [("errorId"%string, JNum 0);
             ("taskId"%string, JStr (str "task-1"))]).
Definition taskProcessing : Outcome JsVal :=
  Ret (JObj [("status"%string, JStr (str "processing"))]).
Definition taskReady : Outcome JsVal :=
  Ret (JObj [("status"%string, JStr (str "ready"));
             ("solution"%string,
              JObj [("token"%string, JStr (str "TOKEN"))])]).

(** Answers of the faucet. *)
Definition faucetPaid : Outcome JsVal :=
  Ret (JObj [("success"%string, JBool true);
             ("data"%string,
              JObj [("transactionHash"%string, JStr (str "0xfeed"))])]).
Definition faucetRefused : Outcome JsVal :=
  Ret (JObj [("success"%string, JBool false)]).
Definition faucetBareSuccess : Outcome JsVal :=
  Ret (JObj [("success"%string, JBool true)]).

(** A world in which the captcha is solved and the faucet answers with the
    success flag alone. *)
Definition bareSuccess : World :=
  withPosts [taskCreated; taskReady; faucetBareSuccess] calm.

End Scripted.

(** *** More sample data *)

Module ScriptedStart.

(** A stand-in for [yaml.load]: an empty document gives no mapping, every
    other one the sample configuration. *)
Definition sampleYaml (text : jsstring) : Outcome (option Config) :=
  match text with
  | [] => Ret None
  | _ => Ret (Some Scripted.sampleConfig)
  end.

(** A world whose files hold a comment and nothing else. *)
Definition noKeys : Scripted.World :=
  Scripted.withFile (str "# no keys yet") Scripted.calm.

(** A world whose files cannot be read. *)
Definition noFiles : Scripted.World :=
  {| Scripted.file := Throw (ExternalError "ENOENT");
     Scripted.posts := [];
     Scripted.nonce := Ret 7;
     Scripted.gasEstimate := Ret 100000;
     Scripted.gasPrice := Ret 1000000000;
     Scripted.signed := Ret (str "0xf86b");
     Scripted.sent := Ret (str "0xabc");
     Scripted.receipts := [Ret 1];
     Scripted.randoms := [(1, 1); (9, 4)];
     Scripted.clock := 1700000000000;
     Scripted.uploader := Ret 1%N;
     Scripted.price := Ret 42;
     Scripted.uploads := [Ret (str "upload-1")] |}.

End ScriptedStart.

(* ===================================================================== *)
(** ** Properties: running computations *)
(* ===================================================================== *)

Section Running.
Context {W : Type} {E : External W}.

Lemma result_after {A} t (x : Run W A) : result (after t x) = result x.
Proof. now destruct x as [[r w] t']. Qed.

Lemma world_after {A} t (x : Run W A) : world (after t x) = world x.
Proof. now destruct x as [[r w] t']. Qed.

Lemma events_after {A} t (x : Run W A) : events (after t x) = t ++ events x.
Proof. now destruct x as [[r w] t']. Qed.

Lemma after_after {A} t1 t2 (x : Run W A) :
  after t1 (after t2 x) = after (t1 ++ t2) x.
Proof. destruct x as [[r w] t']; cbn. now rewrite app_assoc. Qed.

Lemma run_bind {A B} (m : M W A) (f : A -> M W B) (w : W) :
  bind m f w = binding f (m w).
Proof. reflexivity. Qed.

Lemma run_catch {A} (m : M W A) (h : JsError -> M W A) (w : W) :
  catch m h w = catching h (m w).
Proof. reflexivity. Qed.

Lemma run_method {A} (m : Method) (enc : A -> JsVal) (body : M W A) w :
  method m enc body w = returning m enc (body w).
Proof. reflexivity. Qed.

Lemma run_ret {A} (a : A) (w : W) : (ret a : M W A) w = (Ret a, w, []).
Proof. reflexivity. Qed.

Lemma run_raise {A} (e : JsError) (w : W) :
  (raise e : M W A) w = (Throw e, w, []).
Proof. reflexivity. Qed.

Lemma run_emit (e : Event) (w : W) : emit e w = (Ret tt, w, [e]).
Proof. reflexivity. Qed.

Lemma run_log_info msg (w : W) : log_info msg w = (Ret tt, w, [EvLog INFO msg]).
Proof. reflexivity. Qed.

Lemma run_log_error msg (w : W) :
  log_error msg w = (Ret tt, w, [EvLog ERROR msg]).
Proof. reflexivity. Qed.

Lemma run_sleep ms (w : W) : sleep ms w = (Ret tt, elapse ms w, [EvSleep ms]).
Proof. reflexivity. Qed.

Lemma run_eval {A} (r : Outcome A) (w : W) : eval r w = (r, w, []).
Proof. reflexivity. Qed.

Lemma run_call {A} (op : W -> Outcome A * W) ev (w : W) :
  call op ev w = (fst (op w), snd (op w), [ev (fst (op w))]).
Proof. unfold call. now destruct (op w). Qed.

Lemma run_ask {A} (op : W -> A * W) ev (w : W) :
  ask op ev w = (Ret (fst (op w)), snd (op w), [ev (fst (op w))]).
Proof. unfold ask. now destruct (op w). Qed.

(** A method whose body answers, with a property [P] of the body's events. *)
Lemma method_quiet {A} (m : Method) (enc : A -> JsVal) (body : M W A) w
  (P : list Event -> Prop) :
  (exists a w' t, body w = (Ret a, w', t) /\ P t) ->
  exists a w' t,
    method m enc body w = (Ret a, w', EvCall m :: t ++ [EvReturn m (enc a)])
    /\ P t.
Proof.
  intros (a & w' & t & Hb & HP). exists a, w', t.
  rewrite run_method, Hb. split; [reflexivity|exact HP].
Qed.

End Running.

Create Rewrite HintDb run.
#[global] Hint Rewrite @run_bind @run_catch @run_method @run_ret @run_raise
  @run_emit @run_log_info @run_log_error @run_sleep @run_eval @run_call
  @run_ask @result_after @world_after @events_after : run.

(** Unfold the run of a computation as far as the answers of the outside
    world allow. *)
Ltac run_simpl :=
  repeat (autorewrite with run in *;
          cbn [binding catching returning after app fst snd negb] in * ).

(** Case analysis on the outcome of the next external call. *)
Ltac run_call :=
  match goal with
  | |- context [fst (?op ?w)] =>
      destruct (op w) as [[?|?] ?]; cbn [fst snd] in *
  end.

Ltac run_calls := repeat (run_simpl; try run_call).

(** Case analysis on the test of a conditional. *)
Ltac run_if :=
  try match goal with |- context [if ?b then _ else _] => destruct b end.

(** Every way an event can be a member of an explicit trace. *)
Ltac members H :=
  cbn in H;
  repeat match type of H with
         | _ \/ _ => destruct H as [H|H]
         end;
  try discriminate H; try contradiction H.

Section WalletSet.
Context {W : Type} {E : External W}.
Variable config : Config.

Lemma loadLines_skip line rest wallets :
  keyOfLine line = None ->
  loadLines (line :: rest) wallets = loadLines rest wallets.
Proof.
  unfold keyOfLine. cbn [loadLines]. cbn zeta.
  destruct (trim line) as [|c trimmed]; [reflexivity|].
  cbn [truthy negb orb].
  destruct (startsWith (str "#") (c :: trimmed)); [reflexivity|].
  destruct (startsWith (str "0x") (c :: trimmed)); discriminate.
Qed.

Lemma loadLines_key line key rest wallets :
  keyOfLine line = Some key ->
  loadLines (line :: rest) wallets =
    match newWallet key with
    | Ret wallet =>
        loadLines rest
          (wallets ++ [{| address := w_address wallet;
                          privateKey := key;
                          wallet := wallet |}])
    | Throw e => Throw e
    end.
Proof.
  unfold keyOfLine. cbn [loadLines]. cbn zeta.
  destruct (trim line) as [|c trimmed]; [discriminate|].
  cbn [truthy negb orb].
  destruct (startsWith (str "#") (c :: trimmed)); [discriminate|].
  destruct (startsWith (str "0x") (c :: trimmed)); intros [= <-]; reflexivity.
Qed.

Lemma loadLines_all_or_nothing lines wallets :
  if allDerive lines
  then loadLines lines wallets = Ret (wallets ++ validLineWallets lines)
  else exists e, loadLines lines wallets = Throw e.
Proof.
  revert wallets. induction lines as [|line rest IH]; intros wallets.
  - cbn. now rewrite app_nil_r.
  - unfold allDerive, validLineWallets, candidateKeys in *.
    cbn [flat_map]. destruct (keyOfLine line) as [key|] eqn:Hkey.
    + erewrite loadLines_key by exact Hkey.
      cbn [app flat_map forallb]. unfold walletEntry at 1 3.
      destruct (newWallet key) as [wallet|e]; cbn [andb]; [|eauto].
      specialize (IH (wallets ++ [{| address := w_address wallet;
                                     privateKey := key;
                                     wallet := wallet |}])).
      destruct (forallb _ _); [|exact IH].
      rewrite IH, <- app_assoc. reflexivity.
    + erewrite loadLines_skip by exact Hkey. cbn [app]. apply IH.
Qed.

End WalletSet.

Section CaptchaProofs.
Context {W : Type} {E : External W}.
Variable config : Config.

Lemma Polling_polls taskId n t v :
  Polling config taskId n t v -> (polls t <= 15 - n)%nat.
Proof.
  unfold polls. induction 1; cbn -[Nat.sub] in *; lia.
Qed.

Lemma net_app t1 t2 : net (t1 ++ t2) = net t1 ++ net t2.
Proof. apply filter_app. Qed.

Lemma getProp_defined v k a k' :
  getProp v k = Ret a -> exists b, getProp v k' = Ret b.
Proof. destruct v; cbn; intros H; try discriminate; eauto. Qed.

Lemma pollLoop_Polling remaining taskId w :
  (remaining <= 15)%nat ->
  Polling config taskId (15 - remaining)
    (net (events (pollLoop config remaining taskId w)))
    (settled (result (pollLoop config remaining taskId w))).
Proof.
  revert w. induction remaining as [|k IH]; intros w Hk.
  - cbn. apply poll_timeout.
  - cbn [pollLoop]. run_simpl. run_call; run_simpl.
    + destruct (getProp a "status") as [status|e] eqn:Hst; run_simpl.
      * destruct (strictEqStr status (str "ready")) eqn:Hready;
          [|destruct (strictEqStr status (str "failed")) eqn:Hfailed];
          run_simpl.
        -- destruct (getProp_defined a "status" "solution" Hst)
             as [solution Hsol].
           rewrite Hsol. run_simpl.
           cbn -[Nat.sub]. eapply poll_ready; eauto. lia.
        -- cbn -[Nat.sub]. eapply poll_failed; eauto. lia.
        -- cbn [net filter isNet].
           eapply poll_again; eauto; [lia|].
           replace (S (15 - S k)) with (15 - k)%nat by lia.
           apply IH. lia.
      * cbn -[Nat.sub].
        apply poll_error; [lia|]. intros d [= <-]. eauto.
    + cbn -[Nat.sub].
      apply poll_error; [lia|]. intros d [=].
Qed.

Lemma getCaptchaToken_Solving w :
  exists v,
    result (getCaptchaToken config w) = Ret v /\
    Solving config (net (events (getCaptchaToken config w))) v.
Proof.
  unfold getCaptchaToken. run_simpl. run_call; run_simpl.
  - destruct (getProp a "taskId") as [taskId|e] eqn:Hid; run_simpl.
    + destruct (truthy taskId) eqn:Htid; run_simpl.
      * pose proof (@pollLoop_Polling maxAttempts taskId w0 (le_n 15)) as HP.
        destruct (pollLoop config maxAttempts taskId w0) as [[[v|e] w2] t2];
          run_simpl; cbn -[Nat.sub] in *; eexists;
          (split; [reflexivity|]);
          rewrite ?net_app, ?app_nil_r; cbn [net filter isNet app];
          rewrite ?app_nil_r; eapply solve_created; eauto.
      * exists JNull. split; [reflexivity|].
        cbn. apply solve_not_created. intros d [= <-]. eauto.
    + exists JNull. split; [reflexivity|].
      cbn. apply solve_not_created. intros d [= <-]. eauto.
  - exists JNull. split; [reflexivity|].
    cbn. apply solve_not_created. intros d [=].
Qed.

Lemma polls_net t : polls (net t) = polls t.
Proof.
  unfold polls, net. induction t as [|e t IH]; [reflexivity|].
  destruct e; cbn; try exact IH.
  destruct (String.eqb _ _); cbn; now rewrite IH.
Qed.

Lemma Solving_polls t v : Solving config t v -> (polls t <= 15)%nat.
Proof.
  destruct 1 as [r H|data taskId t v Hid Htid HP].
  - cbn. lia.
  - apply Polling_polls in HP. unfold polls in *. cbn in *. lia.
Qed.

(** C4: for every behaviour of the captcha service, [getCaptchaToken]
    returns (it never throws), it sends at most 15 requests to
    [getTaskResult], and its requests and waits follow the protocol
    [Solving]: a creation that fails or answers no task identifier gives
    [null] with no poll at all; a poll that answers [ready] returns the
    token of that answer at once; a poll that answers [failed], or that
    fails, gives [null] at once; any other status is followed by a wait of
    2000 ms and the next poll; after the fifteenth such wait the result is
    [null].  Every failure is the same value, [null]. *)
Theorem getCaptchaToken_bounded_polling w :
  exists v,
    result (getCaptchaToken config w) = Ret v /\
    (polls (events (getCaptchaToken config w)) <= 15)%nat /\
    Solving config (net (events (getCaptchaToken config w))) v.
Proof.
  destruct (getCaptchaToken_Solving w) as (v & Hv & HS).
  exists v. split; [exact Hv|]. split; [|exact HS].
  rewrite <- polls_net. eapply Solving_polls; eauto.
Qed.
End CaptchaProofs.

Section Faucet.
Context {W : Type} {E : External W}.
Variable config : Config.

Lemma faucetAccepts_truthy body :
  faucetAccepts body = true -> truthy body = true.
Proof. destruct body; cbn; try discriminate; reflexivity. Qed.

Ltac faucet_done :=
  cbn [result events fst snd net filter isNet andb];
  rewrite ?net_app, ?app_nil_r; cbn [net filter isNet app];
  rewrite ?net_app, ?app_nil_r; cbn [net filter isNet app];
  split; reflexivity.

(** What a claim does once the captcha step has answered. *)
Lemma claimFaucet_after_captcha walletAddress (w : W) token (w1 : W) tc :
  getCaptchaToken config w = (Ret token, w1, tc) ->
  let request := faucetRequest token walletAddress in
  let answer := fst (axios_post faucetUrl request w1) in
  if truthy token
  then
    result (claimFaucet config walletAddress w) =
      Ret (match answer with
           | Ret body => faucetAccepts body
           | Throw _ => false
           end) /\
    net (events (claimFaucet config walletAddress w)) =
      net tc ++ [EvPost faucetUrl request answer]
  else
    result (claimFaucet config walletAddress w) = Ret false /\
    net (events (claimFaucet config walletAddress w)) = net tc.
Proof.
  intros Hc request answer. subst request answer.
  unfold claimFaucet, faucetRequest. run_simpl. rewrite Hc. run_simpl.
  destruct (truthy token); run_simpl; [|faucet_done].
  run_call; run_simpl; [|faucet_done].
  unfold faucetAccepts.
  destruct a as [| |b|z|s|items|fields]; cbn [truthy getProp getPropOpt];
    run_simpl; cbn [truthy andb]; run_simpl; try faucet_done.
  - destruct b; run_simpl; cbn [truthy]; run_simpl; faucet_done.
  - destruct (z =? 0) eqn:Hz; run_simpl; cbn [truthy]; rewrite ?Hz; run_simpl;
      faucet_done.
  - destruct s; run_simpl; cbn [truthy]; run_simpl; faucet_done.
  - destruct (truthy (lookupField "success" fields)); run_simpl;
      [|faucet_done].
    destruct (lookupField "data" fields) as [| |b|z|s|items|fs];
      cbn [getProp isNullish negb andb]; run_simpl; faucet_done.
Qed.

(** [claimFaucet] in full: it first asks for a captcha token; with no
    token it returns [false] and sends nothing to the faucet; with a token
    it sends one request to the faucet and returns [true] exactly when the
    answer carries a truthy [success] field and a [data] field that is
    neither [null] nor [undefined]; it never throws. *)
Theorem claimFaucet_outcome walletAddress (w : W) :
  exists token,
    result (getCaptchaToken config w) = Ret token /\
    let request := faucetRequest token walletAddress in
    let answer :=
      fst (axios_post faucetUrl request (world (getCaptchaToken config w))) in
    if truthy token
    then
      result (claimFaucet config walletAddress w) =
        Ret (match answer with
             | Ret body => faucetAccepts body
             | Throw _ => false
             end) /\
      net (events (claimFaucet config walletAddress w)) =
        net (events (getCaptchaToken config w))
          ++ [EvPost faucetUrl request answer]
    else
      result (claimFaucet config walletAddress w) = Ret false /\
      net (events (claimFaucet config walletAddress w)) =
        net (events (getCaptchaToken config w)).
Proof.
  destruct (getCaptchaToken_Solving config w) as (token & Hr & _).
  exists token. split; [exact Hr|].
  destruct (getCaptchaToken config w) as [[r w1] tc] eqn:Hc.
  cbn [result world events fst snd] in *. subst r.
  exact (claimFaucet_after_captcha walletAddress w Hc).
Qed.

(** C6, where the code departs from it: when the captcha step has given a
    token and the faucet answers with the success flag set but no [data]
    field, [claimFaucet] returns [false].  (The success branch builds its
    log message from [result.data.transactionHash]; the [TypeError] of
    that read is caught by the method's own [catch].) *)
Theorem claimFaucet_success_flag_without_data
  walletAddress (w : W) token (w1 : W) tc :
  getCaptchaToken config w = (Ret token, w1, tc) ->
  truthy token = true ->
  fst (axios_post faucetUrl (faucetRequest token walletAddress) w1) =
    Ret (JObj [("success"%string, JBool true)]) ->
  result (claimFaucet config walletAddress w) = Ret false.
Proof.
  intros Hc Ht Hanswer.
  pose proof (claimFaucet_after_captcha walletAddress w Hc) as H.
  cbv zeta in H. rewrite Ht, Hanswer in H. exact (proj1 H).
Qed.
End Faucet.

Section Payment.
Context {W : Type} {E : External W}.


Lemma payForGame_run walletInfo w :
  exists v w' t,
    payForGame walletInfo w =
      (Ret v, w',
       EvCall (payForGame_ walletInfo) :: t
         ++ [EvReturn (payForGame_ walletInfo) v]) /\
    control t = [].
Proof.
  unfold payForGame.
  apply method_quiet with (enc := fun v => v) (P := fun t => control t = []).
  run_calls. all: run_if. all: run_calls.
  all: do 3 eexists; split; reflexivity.
Qed.

End Payment.

Section Simulator.
Context {W : Type} {E : External W}.
Variable config : Config.

Lemma simulateSnakeGame_run w :
  let r1 := fst (Math_random w) in
  let r2 := fst (Math_random (snd (Math_random w))) in
  let score := floorRandom r1 (min_score config) (max_score config) in
  let gameTime :=
    floorRandom r2 (min_play_time config) (max_play_time config) in
  simulateSnakeGame config w =
    (Ret score, elapse (gameTime * 1000) (snd (Math_random (snd (Math_random w)))),
     [EvCall simulateSnakeGame_; EvRandom r1; EvRandom r2;
      EvLog INFO "Simulating Snake game"; EvSleep (gameTime * 1000);
      EvReturn simulateSnakeGame_ (JNum score)]).
Proof.
  unfold simulateSnakeGame. run_simpl. reflexivity.
Qed.





End Simulator.

Section Publisher.
Context {W : Type} {E : External W}.

Lemma submitGameScore_run walletInfo score w :
  exists b w' t,
    submitGameScore walletInfo score w =
      (Ret b, w',
       EvCall (submitGameScore_ walletInfo score) :: t
         ++ [EvReturn (submitGameScore_ walletInfo score) (JBool b)]) /\
    control t = [].
Proof.
  unfold submitGameScore.
  apply method_quiet with (P := fun t => control t = []).
  run_calls.
  all: do 3 eexists; split; reflexivity.
Qed.

Lemma submitGameScore_Publishing walletInfo score (w : W) :
  exists b,
    result (submitGameScore walletInfo score w) = Ret b /\
    Publishing walletInfo score
      (storage (events (submitGameScore walletInfo score w))) b.
Proof.
  unfold submitGameScore. run_calls.
  all: eexists; (split; [reflexivity|]); cbn [events snd storage filter isStorage].
  - apply (pub_upload walletInfo score _ _ _ _ (Ret a1)).
  - apply (pub_upload walletInfo score _ _ _ _ (Throw e)).
  - apply pub_no_price.
  - apply pub_no_uploader.
Qed.

Lemma Publishing_success walletInfo score t b :
  Publishing walletInfo score t b ->
  b = true <->
  exists uploader data tags id, In (EvUpload uploader data tags (Ret id)) t.
Proof.
  destruct 1 as [e|u ts d e|u ts d p [id|e]]; cbn; split;
    try discriminate; try reflexivity.
  - intros (u' & data & tags & id & H). members H.
  - intros (u' & data & tags & id & H). members H.
  - intros _. do 4 eexists. do 4 right. left. reflexivity.
  - intros (u' & data & tags & id & H). members H.
Qed.

(** C7: for every wallet and score, [submitGameScore] returns a boolean
    (no error leaves it), and on the storage side it follows [Publishing]:
    it asks the price for the byte size of the payload; whatever price is
    quoted, it then uploads the payload with its tags; the result is
    [true] exactly when the trace holds an upload that completed without
    error. *)
Theorem submitGameScore_publishes walletInfo score (w : W) :
  exists b,
    result (submitGameScore walletInfo score w) = Ret b /\
    Publishing walletInfo score
      (storage (events (submitGameScore walletInfo score w))) b /\
    (b = true <->
     exists uploader data tags id,
       In (EvUpload uploader data tags (Ret id))
          (events (submitGameScore walletInfo score w))).
Proof.
  destruct (submitGameScore_Publishing walletInfo score w) as (b & Hr & HP).
  exists b. split; [exact Hr|]. split; [exact HP|].
  rewrite (Publishing_success HP). unfold storage.
  split; intros (u & data & tags & id & H); exists u, data, tags, id.
  - apply filter_In in H. tauto.
  - apply filter_In. split; [exact H|reflexivity].
Qed.




End Publisher.

Section Orchestrator.
Context {W : Type} {E : External W}.
Variable config : Config.

(** C2: for every wallet and every behaviour of the outside world, one
    game iteration calls [payForGame] first.  When the payment returns a
    falsy value, the iteration returns [false] and calls nothing else.
    Otherwise it waits 5000 ms, calls [simulateSnakeGame], then
    [submitGameScore] with the wallet and the score, in this order, and
    returns what the submission returned. *)
Theorem playGameForWallet_steps walletInfo w :
  let game := playGameForWallet_ walletInfo in
  let pay := payForGame_ walletInfo in
  exists paymentTx,
    (truthy paymentTx = false /\
     result (playGameForWallet config walletInfo w) = Ret false /\
     control (events (playGameForWallet config walletInfo w)) =
       [EvCall game; EvCall pay; EvReturn pay paymentTx;
        EvReturn game (JBool false)])
    \/
    (exists gameTime score submitted,
       truthy paymentTx = true /\
       result (playGameForWallet config walletInfo w) = Ret submitted /\
       control (events (playGameForWallet config walletInfo w)) =
         [EvCall game; EvCall pay; EvReturn pay paymentTx;
          EvSleep 5000;
          EvCall simulateSnakeGame_; EvSleep (gameTime * 1000);
          EvReturn simulateSnakeGame_ (JNum score);
          EvCall (submitGameScore_ walletInfo score);
          EvReturn (submitGameScore_ walletInfo score) (JBool submitted);
          EvReturn game (JBool submitted)]).
Proof.
  intros game pay. unfold playGameForWallet. run_simpl.
  destruct (payForGame_run walletInfo w) as (tx & w1 & tp & Hp & Hcp).
  rewrite Hp. run_simpl. exists tx.
  destruct (truthy tx) eqn:Htx; run_simpl.
  - right. rewrite simulateSnakeGame_run. run_simpl.
    match goal with
    | |- context [submitGameScore walletInfo ?s ?w2] =>
        destruct (submitGameScore_run walletInfo s w2)
          as (b & w3 & ts & Hsub & Hcs); rewrite Hsub
    end.
    run_simpl. do 2 eexists. exists b. split; [reflexivity|].
    destruct b; run_simpl; cbn [result events fst snd];
      (split; [reflexivity|]);
      unfold control in *; cbn [filter isControl app];
      rewrite ?filter_app; cbn [filter isControl app];
      rewrite ?filter_app; cbn [filter isControl app];
      rewrite Hcp, Hcs; reflexivity.
  - left. cbn [result events fst snd].
    split; [reflexivity|]. split; [reflexivity|].
    unfold control in *; cbn [filter isControl app].
    rewrite ?filter_app; cbn [filter isControl app]. rewrite Hcp. reflexivity.
Qed.
End Orchestrator.

Section Scheduler.
Context {W : Type} {E : External W}.
Variable config : Config.

Lemma games_app t1 t2 : games (t1 ++ t2) = games t1 ++ games t2.
Proof. apply filter_app. Qed.

Lemma control_nil_games t : control t = [] -> games t = [].
Proof.
  unfold control, games. induction t as [|e t IH]; [reflexivity|].
  cbn. destruct e; cbn; try discriminate; auto.
Qed.

Lemma pollLoop_games remaining taskId w :
  games (events (pollLoop config remaining taskId w)) = [].
Proof.
  revert w. induction remaining as [|k IH]; intros w; [reflexivity|].
  cbn [pollLoop]. run_simpl. run_call; run_simpl; [|reflexivity].
  destruct (getProp a "status") as [status|e]; run_simpl; [|reflexivity].
  destruct (strictEqStr status (str "ready")); run_simpl.
  - destruct (getProp a "solution"); run_simpl; reflexivity.
  - destruct (strictEqStr status (str "failed")); run_simpl; [reflexivity|].
    cbn [events snd games filter isGame]. apply IH.
Qed.

Lemma getCaptchaToken_run w :
  exists v w' t,
    getCaptchaToken config w = (Ret v, w', t) /\ games t = [].
Proof.
  unfold getCaptchaToken. run_simpl. run_call; run_simpl.
  - destruct (getProp a "taskId") as [taskId|e]; run_simpl.
    + destruct (truthy taskId); run_simpl.
      * pose proof (pollLoop_games maxAttempts taskId w0) as Hg.
        destruct (pollLoop config maxAttempts taskId w0) as [[[v|e] w2] t2];
          run_simpl; cbn [events snd] in Hg;
          do 3 eexists; (split; [reflexivity|]);
          cbn [games filter isGame]; rewrite ?games_app, Hg; reflexivity.
      * do 3 eexists; split; reflexivity.
    + do 3 eexists; split; reflexivity.
  - do 3 eexists; split; reflexivity.
Qed.

Lemma claimFaucet_run walletAddress w :
  exists b w' t,
    claimFaucet config walletAddress w = (Ret b, w', t) /\ games t = [].
Proof.
  unfold claimFaucet. run_simpl.
  destruct (getCaptchaToken_run w) as (token & w1 & t1 & Hc & Hg1).
  rewrite Hc. run_simpl.
  assert (Hdone : forall b (w' : W) t,
            games t = [] ->
            exists b' w'' t',
              (Ret b, w',
               EvCall (claimFaucet_ walletAddress) :: (t1 ++ t)
                 ++ [EvReturn (claimFaucet_ walletAddress) (JBool b)])
              = (Ret b', w'', t') /\ games t' = []).
  { intros b w' t Ht. do 3 eexists. split; [reflexivity|].
    cbn [games filter isGame]. fold (games ((t1 ++ t) ++ [EvReturn (claimFaucet_ walletAddress) (JBool b)])).
    rewrite !games_app, Hg1, Ht. reflexivity. }
  destruct (truthy token); run_simpl; [|now apply Hdone].
  run_call; run_simpl; [|now apply Hdone].
  destruct (truthy a) eqn:Ha; run_simpl.
  - destruct (getProp a "success") as [success|e]; run_simpl;
      [|now apply Hdone].
    destruct (truthy success); run_simpl; [|now apply Hdone].
    destruct (getProp a "data") as [d|e]; run_simpl; [|now apply Hdone].
    destruct (getProp d "transactionHash"); run_simpl; now apply Hdone.
  - rewrite Ha. run_simpl. now apply Hdone.
Qed.

Lemma playGameForWallet_run walletInfo w :
  exists b w' t,
    playGameForWallet config walletInfo w =
      (Ret b, w',
       EvCall (playGameForWallet_ walletInfo) :: t
         ++ [EvReturn (playGameForWallet_ walletInfo) (JBool b)]) /\
    games t = [].
Proof.
  unfold playGameForWallet.
  apply method_quiet with (P := fun t => games t = []).
  run_simpl.
  destruct (payForGame_run walletInfo w) as (tx & w1 & tp & Hp & Hcp).
  apply control_nil_games in Hcp.
  rewrite Hp. run_simpl.
  destruct (truthy tx); run_simpl.
  - rewrite simulateSnakeGame_run. run_simpl.
    match goal with
    | |- context [submitGameScore walletInfo ?s ?w2] =>
        destruct (submitGameScore_run walletInfo s w2)
          as (b & w3 & ts & Hsub & Hcs); rewrite Hsub
    end.
    apply control_nil_games in Hcs.
    destruct b; run_simpl; do 3 eexists; (split; [reflexivity|]);
      cbn [games filter isGame];
      repeat (rewrite ?games_app; cbn [games filter isGame app]);
      fold (games tp); fold (games ts); rewrite Hcp, Hcs; reflexivity.
  - do 3 eexists; (split; [reflexivity|]).
    cbn [games filter isGame];
      repeat (rewrite ?games_app; cbn [games filter isGame app]).
    fold (games tp). rewrite Hcp. reflexivity.
Qed.

Lemma gameLoop_run remaining gameNum wallet gameSuccesses w :
  exists s (w' : W) t,
    gameLoop config remaining gameNum wallet gameSuccesses w = (Ret s, w', t)
    /\ FailFast wallet remaining (games t).
Proof.
  revert gameNum gameSuccesses w.
  induction remaining as [|k IH]; intros gameNum gameSuccesses w.
  - do 3 eexists. split; [reflexivity|]. apply ff_none.
  - cbn [gameLoop]. run_simpl.
    destruct (playGameForWallet_run wallet w) as (b & w1 & t1 & Hp & Hg).
    rewrite Hp. run_simpl. destruct b; run_simpl.
    + destruct (gameNum <? gamesPerWallet config); run_simpl;
        match goal with
        | |- context [gameLoop config k ?g wallet ?s ?w2] =>
            destruct (IH g s w2) as (s' & w3 & t3 & Hl & Hff); rewrite Hl
        end;
        run_simpl; do 3 eexists; (split; [reflexivity|]);
        cbn [games filter isGame];
        repeat (rewrite ?games_app; cbn [games filter isGame app]);
        fold (games t1); fold (games t3); rewrite Hg;
        apply ff_completed; exact Hff.
    + do 3 eexists; (split; [reflexivity|]).
      cbn [games filter isGame];
        repeat (rewrite ?games_app; cbn [games filter isGame app]).
      fold (games t1). rewrite Hg. apply ff_failed.
Qed.

Lemma processWallet_run wallet counters w :
  exists c (w' : W) t,
    processWallet config wallet counters w = (Ret c, w', t) /\
    FailFast wallet (plannedGames config) (games t).
Proof.
  unfold processWallet, plannedGames.
  assert (Hgame : forall (w1 : W),
            exists s (w' : W) t,
              (if game_enabled config
               then
                 log_info "Starting games for wallet" ;;
                 gameLoop config (Z.to_nat (gamesPerWallet config)) 1
                   wallet (snd counters)
               else ret (snd counters)) w1 = (Ret s, w', t) /\
              FailFast wallet
                (if game_enabled config
                 then Z.to_nat (gamesPerWallet config) else 0%nat) (games t)).
  { intros w1. destruct (game_enabled config); run_simpl.
    - destruct (gameLoop_run (Z.to_nat (gamesPerWallet config)) 1 wallet
                  (snd counters) w1) as (s & w2 & t2 & Hl & Hff).
      rewrite Hl. run_simpl. do 3 eexists. split; [reflexivity|].
      cbn [games filter isGame]. exact Hff.
    - do 3 eexists. split; [reflexivity|]. apply ff_none. }
  run_simpl.
  destruct (faucet_enabled config); run_simpl.
  - destruct (claimFaucet_run (address wallet) w) as (b & w1 & t1 & Hc & Hg).
    rewrite Hc. run_simpl.
    destruct b; run_simpl;
      match goal with
      | |- context [(if game_enabled config then _ else _) ?w2] =>
          destruct (Hgame w2) as (s & w3 & t3 & Hb & Hff)
      end;
      rewrite Hb; run_simpl; do 3 eexists; (split; [reflexivity|]);
      cbn [games filter isGame];
      repeat (rewrite ?games_app; cbn [games filter isGame app]);
      fold (games t1); fold (games t3); rewrite Hg, ?app_nil_r; exact Hff.
  - destruct (Hgame w) as (s & w3 & t3 & Hb & Hff).
    rewrite Hb. run_simpl. do 3 eexists. split; [reflexivity|].
    cbn [games filter isGame].
    repeat (rewrite ?games_app; cbn [games filter isGame app]).
    rewrite ?app_nil_r. exact Hff.
Qed.

Lemma processWallets_run wallets counters w :
  exists c (w' : W) t segments,
    processWallets config wallets counters w = (Ret c, w', t) /\
    Forall2 (fun wallet segment =>
               FailFast wallet (plannedGames config) segment)
            wallets segments /\
    games t = List.concat segments.
Proof.
  revert counters w. induction wallets as [|wallet rest IH]; intros counters w.
  - exists counters, w, [], []. repeat split. constructor.
  - cbn [processWallets]. run_simpl.
    destruct (processWallet_run wallet counters w)
      as (c1 & w1 & t1 & Hp & Hff).
    rewrite Hp. run_simpl.
    destruct (IH c1 w1) as (c2 & w2 & t2 & segments & Hr & Hall & Hg).
    rewrite Hr. run_simpl.
    exists c2, w2, (t1 ++ t2), (games t1 :: segments).
    split; [reflexivity|]. split; [constructor; assumption|].
    rewrite games_app, Hg. reflexivity.
Qed.

Lemma runCycle_games wallets w :
  exists c segments,
    result (runCycle config wallets w) = Ret c /\
    Forall2 (fun wallet segment =>
               FailFast wallet (plannedGames config) segment)
            wallets segments /\
    games (events (runCycle config wallets w)) = List.concat segments.
Proof.
  unfold runCycle. run_simpl.
  destruct (processWallets_run wallets (0, 0) w)
    as (c & w1 & t & segments & Hr & Hall & Hg).
  rewrite Hr. run_simpl. exists c, segments.
  destruct (faucet_enabled config), (game_enabled config); run_simpl;
    unfold countdown; run_simpl; cbn [result events fst snd];
    (split; [reflexivity|]); (split; [exact Hall|]);
    rewrite games_app, Hg; cbn; now rewrite app_nil_r.
Qed.

(** C3: in one scheduler cycle the calls of [playGameForWallet] are, wallet
    after wallet in list order, a fail-fast run for that wallet: at most
    the planned number of iterations, each one after the first following
    an iteration that returned [true], and nothing after an iteration that
    returned [false].  Every wallet of the list gets its run, whatever
    happened to the wallets before it, and the cycle returns. *)
Theorem runCycle_fail_fast wallets w :
  exists counters segments,
    result (runCycle config wallets w) = Ret counters /\
    Forall2 (fun wallet segment =>
               FailFast wallet (plannedGames config) segment)
            wallets segments /\
    games (events (runCycle config wallets w)) = List.concat segments.
Proof. exact (runCycle_games wallets w). Qed.

Lemma FailFast_one wallet segment :
  FailFast wallet 1 segment ->
  exists b,
    segment = [EvCall (playGameForWallet_ wallet);
               EvReturn (playGameForWallet_ wallet) (JBool b)].
Proof.
  intros H. inversion H as [|n t Ht|n]; subst.
  - inversion Ht; subst. now exists true.
  - now exists false.
Qed.

Lemma oneGameEach_segments wallets segments :
  Forall2 (fun wallet segment => FailFast wallet 1 segment) wallets segments ->
  exists outcomes,
    List.length outcomes = List.length wallets /\
    List.concat segments = oneGameEach wallets outcomes.
Proof.
  induction 1 as [|wallet segment wallets segments Hff _ IH].
  - now exists [].
  - destruct IH as (outcomes & Hlen & Hc).
    destruct (FailFast_one Hff) as (b & ->).
    exists (b :: outcomes). cbn. rewrite Hlen, Hc. auto.
Qed.

(** C10: when [games_per_wallet] is absent, [null] or 0, the number of
    games per wallet is 1, and a cycle with the game enabled calls
    [playGameForWallet] exactly once for every wallet, in list order. *)
Theorem runCycle_default_one_game wallets w :
  falsyNum (games_per_wallet config) = true ->
  gamesPerWallet config = 1 /\
  (game_enabled config = true ->
   exists outcomes,
     List.length outcomes = List.length wallets /\
     games (events (runCycle config wallets w)) =
       oneGameEach wallets outcomes).
Proof.
  intros Hfalsy.
  assert (Hone : gamesPerWallet config = 1).
  { unfold gamesPerWallet, falsyNum in *.
    destruct (games_per_wallet config) as [| |n]; try reflexivity.
    now rewrite Hfalsy. }
  split; [exact Hone|]. intros Hgame.
  destruct (runCycle_games wallets w) as (c & segments & _ & Hall & Hg).
  unfold plannedGames in Hall. rewrite Hgame, Hone in Hall.
  rewrite Hg. now apply oneGameEach_segments.
Qed.

End Scheduler.

(* ===================================================================== *)
(** ** Runs on the scripted world *)
(* ===================================================================== *)

Section ScriptedRuns.
Import Scripted.

(** *** The wallet set *)

(** Comments, blank lines and surrounding blanks are skipped, a missing
    ["0x"] is added, file order is kept. *)
Example loadWallets_in_file_order :
  let contents :=
    str "# keys" ++ newline ++ str "  " ++ skipn 2 aliceKey ++ str "  "
      ++ newline ++ newline ++ bobKey ++ newline in
  result (loadWallets sampleConfig (withFile contents calm))
  = Ret [alice; bob].
Proof. vm_compute. reflexivity. Qed.


(** *** The captcha solver *)

Example getCaptchaToken_ready_on_second_poll :
  let x := getCaptchaToken sampleConfig
             (withPosts [taskCreated; taskProcessing; taskReady] calm) in
  result x = Ret (JStr (str "TOKEN")) /\ polls (events x) = 2%nat.
Proof. vm_compute. split; reflexivity. Qed.

Example getCaptchaToken_times_out :
  let x := getCaptchaToken sampleConfig
             (withPosts (taskCreated :: repeat taskProcessing 20) calm) in
  result x = Ret JNull /\ polls (events x) = 15%nat /\
  List.length (posts (world x)) = 5%nat.
Proof. vm_compute. repeat split; reflexivity. Qed.

(** *** The faucet *)

Example claimFaucet_paid :
  result (claimFaucet sampleConfig (address alice)
            (withPosts [taskCreated; taskReady; faucetPaid] calm))
  = Ret true.
Proof. vm_compute. reflexivity. Qed.

Example claimFaucet_refused :
  result (claimFaucet sampleConfig (address alice)
            (withPosts [taskCreated; taskReady; faucetRefused] calm))
  = Ret false.
Proof. vm_compute. reflexivity. Qed.

Lemma claimFaucet_success_flag_without_data_witness :
  let token := JStr (str "TOKEN") in
  let solved := getCaptchaToken sampleConfig bareSuccess in
  result solved = Ret token /\
  truthy token = true /\
  fst (axios_post faucetUrl (faucetRequest token (address alice))
         (world solved)) = faucetBareSuccess /\
  result (claimFaucet sampleConfig (address alice) bareSuccess) = Ret false.
Proof.
  cbv zeta.
  split; [vm_compute; reflexivity|].
  split; [reflexivity|].
  split; [vm_compute; reflexivity|].
  apply (@claimFaucet_success_flag_without_data World external sampleConfig
           (address alice) bareSuccess (JStr (str "TOKEN"))
           (world (getCaptchaToken sampleConfig bareSuccess))
           (events (getCaptchaToken sampleConfig bareSuccess)));
    vm_compute; reflexivity.
Defined.

(** *** The payment *)


(** *** The game session *)


(** Binary64 rounds [0.1 * 3] up to [0.30000000000000004]. *)
Example round53_tenth_times_three :
  round53 (3602879701896397 * 3) = 5404319552844596 * 2.
Proof. vm_compute. reflexivity. Qed.

(** The draw [0.3333333333333333]: its exact product with 3 is below 1,
    its binary64 product is 1, and the floor follows the latter. *)
Example floorRandom_rounds_up :
  let third := {| significand := 6004799503160661; scale := 54 |} in
  isUnitDouble third /\
  floorRandomExact (valueOf third) 0 2 = 0 /\
  floorRandom third 0 2 = 1.
Proof.
  cbv zeta. split; [|split; vm_compute; reflexivity].
  unfold isUnitDouble; cbn [significand scale]. lia.
Qed.

Example simulateSnakeGame_fixed_score :
  let config10 := {|
    private_key_file := str "pk.txt"; api_key := str "CAP-KEY";
    faucet_enabled := false; game_enabled := true;
    games_per_wallet := YInt 1; hours_between_runs := 25;
    delay_between_claims := 5; min_score := 10; max_score := 10;
    min_play_time := 1; max_play_time := 3; delay_between_games := 7 |} in
  result (simulateSnakeGame config10 calm) = Ret 10.
Proof. vm_compute. reflexivity. Qed.

(** *** The score publisher *)


(** *** The orchestrator and the scheduler *)

Example playGameForWallet_completes :
  result (playGameForWallet sampleConfig alice calm) = Ret true.
Proof. vm_compute. reflexivity. Qed.

Lemma runCycle_default_one_game_witness :
  falsyNum (games_per_wallet sampleConfig) = true /\
  gamesPerWallet sampleConfig = 1 /\
  exists outcomes,
    List.length outcomes = 2%nat /\
    games (events (runCycle sampleConfig [alice; bob] calm)) =
      oneGameEach [alice; bob] outcomes.
Proof.
  assert (H : falsyNum (games_per_wallet sampleConfig) = true)
    by reflexivity.
  split; [exact H|].
  destruct (runCycle_default_one_game sampleConfig [alice; bob] calm H)
    as (Hone & Hgames).
  split; [exact Hone|]. exact (Hgames eq_refl).
Defined.

End ScriptedRuns.

(* ===================================================================== *)
(** ** Further properties of the methods *)
(* ===================================================================== *)

Section PaymentSteps.
Context {W : Type} {E : External W}.

(** [payForGame] returns the hash of the transaction it sent exactly when
    the receipt of that transaction has status 1, and [null] in every
    other case; it never throws. *)
Theorem payForGame_hash_iff_confirmed walletInfo (w : W) :
  (exists v, result (payForGame walletInfo w) = Ret v) /\
  (forall hash,
     result (payForGame walletInfo w) = Ret (JStr hash) <->
     In (EvWait hash (Ret 1)) (events (payForGame walletInfo w))) /\
  (result (payForGame walletInfo w) = Ret JNull <->
   forall hash,
     ~ In (EvWait hash (Ret 1)) (events (payForGame walletInfo w))) /\
  (forall hash r,
     In (EvWait hash r) (events (payForGame walletInfo w)) ->
     exists signedTx,
       In (EvSendTransaction signedTx (Ret hash))
          (events (payForGame walletInfo w))).
Proof.
  unfold payForGame. run_calls.
  all: try match goal with
           | |- context [if ?a =? 1 then _ else _] =>
               destruct (Z.eqb_spec a 1); [subst|]
           end.
  all: run_calls; cbn [result events fst snd].
  all: split; [eexists; reflexivity|].
  all: split; [intros hash; split;
                 [intros H; try discriminate H; injection H as <-;
                  cbn; tauto
                 |intros H; members H; try injection H as <-;
                  try reflexivity; try congruence]|].
  all: split; [split;
                 [intros H hash Hin; try discriminate H; members Hin;
                  congruence
                 |intros H; try reflexivity; exfalso;
                  eapply H; cbn; eauto 20]|].
  all: intros hash r Hin; members Hin; injection Hin as <- <-;
       eexists; cbn; eauto 20.
Qed.

(** [payForGame] makes at most six chain calls, in the order nonce, gas
    estimate, gas price, signature, submission, receipt; a call that fails
    is the last one, and at most one transaction is submitted. *)
Theorem payForGame_stops_at_first_error walletInfo (w : W) :
  let steps := chain (events (payForGame walletInfo w)) in
  (List.length steps <= 6)%nat /\
  forallb answered (removelast steps) = true /\
  (List.length (filter isSend steps) <= 1)%nat /\
  exists nonce estimate gasPrice signedTx hash status tx,
    steps =
      firstn (List.length steps)
        [EvGetTransactionCount (address walletInfo) nonce;
         EvEstimateGas
           {| gp_from := address walletInfo;
              gp_to := NETWORK_SETTINGS.contract_address;
              gp_value := NETWORK_SETTINGS.payment_amount_wei |} estimate;
         EvGetGasPrice gasPrice;
         EvSignTransaction (wallet walletInfo) tx signedTx;
         EvSendTransaction (settledText signedTx) hash;
         EvWait (settledText hash) status].
Proof.
  cbv zeta. unfold payForGame. run_calls.
  all: run_if; run_calls; cbn [events snd chain filter isChain].
  all: split; [cbn; lia|].
  all: split; [reflexivity|].
  all: split; [cbn; lia|].
  all: cbn [List.length firstn].
  all: try (exists (Ret a), (Ret a0), (Ret a1), (Ret a2), (Ret a3), (Ret a4);
            eexists; reflexivity).
  all: try (exists (Ret a), (Ret a0), (Ret a1), (Ret a2), (Ret a3), (Throw e);
            eexists; reflexivity).
  all: try (exists (Ret a), (Ret a0), (Ret a1), (Ret a2), (Throw e), (Throw e);
            eexists; reflexivity).
  all: try (exists (Ret a), (Ret a0), (Ret a1), (Throw e), (Throw e), (Throw e);
            eexists; reflexivity).
  all: try (exists (Ret a), (Ret a0), (Throw e), (Throw e), (Throw e), (Throw e);
            exists {| tx_to := []; tx_value := 0; tx_gasLimit := 0;
                      tx_gasPrice := 0; tx_nonce := 0; tx_chainId := 0 |};
            reflexivity).
  all: try (exists (Ret a), (Throw e), (Throw e), (Throw e), (Throw e), (Throw e);
            exists {| tx_to := []; tx_value := 0; tx_gasLimit := 0;
                      tx_gasPrice := 0; tx_nonce := 0; tx_chainId := 0 |};
            reflexivity).
  all: try (exists (Throw e), (Throw e), (Throw e), (Throw e), (Throw e), (Throw e);
            exists {| tx_to := []; tx_value := 0; tx_gasLimit := 0;
                      tx_gasPrice := 0; tx_nonce := 0; tx_chainId := 0 |};
            reflexivity).
Qed.

(** The transaction that [payForGame] signs is signed by the wallet of the
    entry, pays the fixed amount to the fixed contract on chain 1270, and
    carries the nonce and the gas price that the chain has just answered
    for the entry's address. *)
Theorem payForGame_transaction_intent walletInfo (w : W) signer tx r :
  In (EvSignTransaction signer tx r) (events (payForGame walletInfo w)) ->
  signer = wallet walletInfo /\
  tx_to tx = NETWORK_SETTINGS.contract_address /\
  tx_value tx = NETWORK_SETTINGS.payment_amount_wei /\
  tx_chainId tx = 1270 /\
  In (EvGetTransactionCount (address walletInfo) (Ret (tx_nonce tx)))
     (events (payForGame walletInfo w)) /\
  In (EvGetGasPrice (Ret (tx_gasPrice tx)))
     (events (payForGame walletInfo w)).
Proof.
  unfold payForGame. run_calls. all: run_if; run_calls.
  all: intros H; members H.
  all: injection H as <- <- <-; cbn; repeat split; tauto.
Qed.

End PaymentSteps.

Section GameSession.
Context {W : Type} {E : External W}.
Variable config : Config.


End GameSession.

Section IterationSafety.
Context {W : Type} {E : External W}.
Variable config : Config.

Lemma filter_nil_not_In (p : Event -> bool) t e :
  filter p t = [] -> p e = true -> ~ In e t.
Proof.
  intros Hf Hp Hin.
  assert (H : In e (filter p t)) by (apply filter_In; auto).
  rewrite Hf in H. exact H.
Qed.

Lemma prefix_before (a b t1 t2 : list Event) x :
  a ++ b = t1 ++ x :: t2 -> ~ In x a -> exists t1', t1 = a ++ t1'.
Proof.
  revert t1. induction a as [|y a IH]; intros t1 Heq Hn.
  - now exists t1.
  - destruct t1 as [|z t1]; cbn in Heq.
    + injection Heq as -> _. exfalso. apply Hn. now left.
    + injection Heq as -> Heq.
      destruct (IH t1 Heq) as [t1' ->]; [intros H; apply Hn; now right|].
      now exists t1'.
Qed.

(** A method whose body answers, with a property [P] of the answer and of
    the body's events. *)
Lemma method_answers {A} (m : Method) (enc : A -> JsVal) (body : M W A) w
  (P : A -> list Event -> Prop) :
  (exists a w' t, body w = (Ret a, w', t) /\ P a t) ->
  exists a w' t,
    method m enc body w = (Ret a, w', EvCall m :: t ++ [EvReturn m (enc a)])
    /\ P a t.
Proof.
  intros (a & w' & t & Hb & HP). exists a, w', t.
  rewrite run_method, Hb. split; [reflexivity|exact HP].
Qed.

Lemma payForGame_confirms walletInfo (w : W) :
  exists v w' t,
    payForGame walletInfo w =
      (Ret v, w',
       EvCall (payForGame_ walletInfo) :: t
         ++ [EvReturn (payForGame_ walletInfo) v]) /\
    filter isUpload t = [] /\
    (List.length (filter isSend t) <= 1)%nat /\
    (truthy v = true -> exists hash, In (EvWait hash (Ret 1)) t).
Proof.
  unfold payForGame.
  apply method_answers with (enc := fun v => v)
    (P := fun v t =>
            filter isUpload t = [] /\
            (List.length (filter isSend t) <= 1)%nat /\
            (truthy v = true -> exists hash, In (EvWait hash (Ret 1)) t)).
  run_calls.
  all: try match goal with
           | |- context [if ?a =? 1 then _ else _] =>
               destruct (Z.eqb_spec a 1); [subst|]
           end.
  all: run_calls.
  all: do 3 eexists; split; [reflexivity|].
  all: split; [reflexivity|]; split; [cbn; lia|].
  all: cbn [truthy]; intros H; try discriminate H.
  all: eexists; cbn; eauto 20.
Qed.

Lemma submitGameScore_uploads walletInfo score (w : W) :
  exists b w' t,
    submitGameScore walletInfo score w =
      (Ret b, w',
       EvCall (submitGameScore_ walletInfo score) :: t
         ++ [EvReturn (submitGameScore_ walletInfo score) (JBool b)]) /\
    filter isSend t = [] /\
    (List.length (filter isUpload t) <= 1)%nat.
Proof.
  unfold submitGameScore.
  apply method_quiet
    with (P := fun t => filter isSend t = [] /\
                        (List.length (filter isUpload t) <= 1)%nat).
  run_calls.
  all: do 3 eexists; split; [reflexivity|]; split; [reflexivity|cbn; lia].
Qed.

Lemma filter_length_app (p : Event -> bool) t1 t2 :
  List.length (filter p (t1 ++ t2)) =
  (List.length (filter p t1) + List.length (filter p t2))%nat.
Proof. now rewrite filter_app, length_app. Qed.

(** One game iteration submits at most one transaction and makes at most
    one upload, and an upload is made only after the receipt of the
    payment has come back with status 1 in the same iteration. *)
Theorem playGameForWallet_pays_before_upload walletInfo (w : W) :
  let evs := events (playGameForWallet config walletInfo w) in
  (List.length (filter isSend evs) <= 1)%nat /\
  (List.length (filter isUpload evs) <= 1)%nat /\
  forall t1 uploader data tags r t2,
    evs = t1 ++ EvUpload uploader data tags r :: t2 ->
    exists hash, In (EvWait hash (Ret 1)) t1.
Proof.
  cbv zeta. unfold playGameForWallet. run_simpl.
  destruct (payForGame_confirms walletInfo w)
    as (tx & w1 & tp & Hp & Hup & Hsend & Hconf).
  rewrite Hp. run_simpl.
  set (head := [EvCall (playGameForWallet_ walletInfo);
                EvLog INFO "Starting game cycle for wallet";
                EvCall (payForGame_ walletInfo)] ++ tp).
  assert (Hhead : forall uploader data tags r,
            ~ In (EvUpload uploader data tags r) head).
  { intros uploader data tags r [H|[H|[H|H]]]; try discriminate H.
    revert H. now apply filter_nil_not_In with (p := isUpload). }
  destruct (truthy tx) eqn:Htx; run_simpl.
  - rewrite simulateSnakeGame_run. run_simpl.
    match goal with
    | |- context [submitGameScore walletInfo ?s ?w2] =>
        destruct (submitGameScore_uploads walletInfo s w2)
          as (b & w3 & ts & Hsub & Hsend' & Hup'); rewrite Hsub
    end.
    destruct b; run_simpl; cbn [events snd].
    all: repeat rewrite <- app_assoc; cbn [app].
    all: split;
      [cbn [filter isSend]; rewrite !filter_length_app;
       cbn [filter isSend List.length]; rewrite !filter_length_app;
       cbn [filter isSend List.length]; rewrite Hsend'; cbn; lia|].
    all: split;
      [cbn [filter isUpload]; rewrite !filter_length_app;
       cbn [filter isUpload List.length]; rewrite !filter_length_app;
       cbn [filter isUpload List.length]; rewrite Hup; cbn; lia|].
    all: intros t1 uploader data tags r t2 Heq;
      destruct (Hconf eq_refl) as [hash Hin]; exists hash;
      apply (prefix_before head) in Heq; [|apply Hhead];
      destruct Heq as [t1' ->]; apply in_or_app; left;
      unfold head; do 3 right; exact Hin.
  - cbn [events snd]. repeat rewrite <- app_assoc; cbn [app].
    split;
      [cbn [filter isSend]; rewrite !filter_length_app;
       cbn [filter isSend List.length]; lia|].
    split;
      [cbn [filter isUpload]; rewrite !filter_length_app;
       cbn [filter isUpload List.length]; rewrite Hup; cbn; lia|].
    intros t1 uploader data tags r t2 Heq. exfalso.
    assert (Hin : In (EvUpload uploader data tags r)
                     (t1 ++ EvUpload uploader data tags r :: t2))
      by (apply in_or_app; right; now left).
    rewrite <- Heq in Hin.
    destruct Hin as [H|[H|[H|H]]]; try discriminate H.
    apply in_app_or in H. destruct H as [H|H].
    + revert H. now apply filter_nil_not_In with (p := isUpload).
    + members H.
Qed.

Lemma inner_event (x : Event) m v ts :
  In x (EvCall m :: ts ++ [EvReturn m v]) ->
  (forall m', x <> EvCall m') ->
  (forall m' v', x <> EvReturn m' v') ->
  In x ts.
Proof.
  intros [H|H] Hc Hr; [now elim (Hc m)|].
  apply in_app_or in H as [H|[H|[]]]; [exact H|now elim (Hr m v)].
Qed.

Lemma submitGameScore_upload_content walletInfo score (w : W)
  uploader data tags r :
  let evs := events (submitGameScore walletInfo score w) in
  In (EvUpload uploader data tags r) evs ->
  exists timestamp date,
    In (EvWithWallet (privateKey walletInfo) (Ret uploader)) evs /\
    In (EvDateNow timestamp) evs /\
    In (EvToISOString date) evs /\
    data = JSON_stringify (scoreRecord score date) /\
    tags = scoreTags (address walletInfo) score timestamp.
Proof.
  cbv zeta. unfold submitGameScore. run_calls.
  all: intros H; members H.
  all: injection H as <- <- <- <-; do 2 eexists; cbn; intuition eauto.
Qed.

(** What a game iteration uploads is the score the simulator has just
    returned in the same iteration: the uploader was opened with the
    private key of the wallet entry, the payload is the record of that
    score and the tags carry that score, the entry's address and the
    clock reading of the iteration. *)
Theorem playGameForWallet_publishes_played_score walletInfo (w : W)
  uploader data tags r :
  let evs := events (playGameForWallet config walletInfo w) in
  In (EvUpload uploader data tags r) evs ->
  exists score timestamp date,
    In (EvReturn simulateSnakeGame_ (JNum score)) evs /\
    In (EvWithWallet (privateKey walletInfo) (Ret uploader)) evs /\
    In (EvDateNow timestamp) evs /\
    In (EvToISOString date) evs /\
    data = JSON_stringify (scoreRecord score date) /\
    tags = scoreTags (address walletInfo) score timestamp.
Proof.
  cbv zeta. unfold playGameForWallet. run_simpl.
  destruct (payForGame_confirms walletInfo w)
    as (tx & w1 & tp & Hp & Hup & _ & _).
  rewrite Hp. run_simpl.
  assert (Htp : ~ In (EvUpload uploader data tags r) tp)
    by now apply filter_nil_not_In with (p := isUpload).
  destruct (truthy tx); run_simpl.
  - rewrite simulateSnakeGame_run. run_simpl.
    match goal with
    | |- context [submitGameScore walletInfo ?s ?w2] =>
        pose proof (@submitGameScore_upload_content walletInfo s w2
                      uploader data tags r) as Hcontent;
        destruct (submitGameScore_run walletInfo s w2)
          as (b & w3 & ts & Hsub & _); rewrite Hsub in *
    end.
    cbv zeta in Hcontent. cbn [events snd] in Hcontent |- *.
    destruct b; run_simpl; cbn [events snd].
    all: intros H; cbn [In] in H; rewrite ?in_app_iff in H; cbn [In] in H;
      rewrite ?in_app_iff in H; cbn [In] in H.
    all: assert (Hin : In (EvUpload uploader data tags r) ts)
        by intuition (try discriminate; auto).
    all: destruct Hcontent as (timestamp & date & H1 & H2 & H3 & H4 & H5);
      [right; apply in_or_app; left; exact Hin|].
    all: apply inner_event in H1; [|discriminate..].
    all: apply inner_event in H2; [|discriminate..].
    all: apply inner_event in H3; [|discriminate..].
    all: eexists _, timestamp, date.
    all: refine (conj _ (conj _ (conj _ (conj _ (conj H4 H5))))).
    all: cbn [In]; rewrite ?in_app_iff; cbn [In]; rewrite ?in_app_iff;
      cbn [In]; try tauto.
    all: repeat first [left; reflexivity | right].
  - intros H. exfalso.
    cbn [events snd In] in H; rewrite ?in_app_iff in H; cbn [In] in H;
      rewrite ?in_app_iff in H; cbn [In] in H.
    intuition discriminate.
Qed.

End IterationSafety.

Section CaptchaBounds.
Context {W : Type} {E : External W}.
Variable config : Config.

Lemma waited_net t : waited (net t) = waited t.
Proof.
  unfold net. induction t as [|e t IH]; [reflexivity|].
  destruct e; cbn; try exact IH. now rewrite IH.
Qed.

Lemma creates_net t :
  filter isCreate (net t) = filter isCreate t.
Proof.
  unfold net. induction t as [|e t IH]; [reflexivity|].
  destruct e; cbn; try exact IH.
  destruct (String.eqb _ _); cbn; now rewrite IH.
Qed.

Lemma Polling_waited taskId n t v :
  Polling config taskId n t v ->
  0 <= waited t <= 2000 * (15 - Z.of_nat n) /\ filter isCreate t = [].
Proof.
  induction 1 as [| | | n data status t v Hn Hs Hr Hf HP [Hw Hc] |];
    cbn [waited filter isCreate];
    change (String.eqb getTaskResultUrl createTaskUrl) with false;
    cbv iota; (split; [lia|try reflexivity]).
  exact Hc.
Qed.


(** [getCaptchaToken] creates exactly one task, with its first request,
    and spends at most 30 seconds in waits between polls. *)
Theorem getCaptchaToken_waits_at_most_30s (w : W) :
  let evs := events (getCaptchaToken config w) in
  0 <= waited evs <= 30000 /\
  List.length (filter isCreate evs) = 1%nat /\
  exists r rest,
    net evs = EvPost createTaskUrl (createTaskPayload config) r :: rest.
Proof.
  cbv zeta. destruct (getCaptchaToken_Solving config w) as (v & _ & HS).
  rewrite <- waited_net, <- creates_net.
  destruct HS as [r H|data taskId t v Hid Htid HP].
  - cbn. repeat split; try lia. eauto.
  - destruct (Polling_waited HP) as [Hw Hc].
    cbn [waited filter isCreate]. cbn. rewrite Hc.
    repeat split; try lia. eauto.
Qed.

Lemma Polling_token taskId n t v :
  Polling config taskId n t v ->
  truthy v = true ->
  exists before data status solution,
    t = before
          ++ [EvPost getTaskResultUrl (getResultPayload config taskId)
                (Ret data)] /\
    getProp data "status" = Ret status /\
    strictEqStr status (str "ready") = true /\
    getProp data "solution" = Ret solution /\
    v = getPropOpt solution "token".
Proof.
  induction 1; intros Hv; try discriminate Hv.
  - exists [], data, status, solution. auto.
  - destruct (IHPolling Hv) as (before & d & st & sol & -> & Hrest).
    eexists (_ :: _ :: before), d, st, sol. split; [reflexivity|exact Hrest].
Qed.

(** A token is only ever the [solution.token] of the last answer of the
    captcha service, and that answer is a poll result with status
    [ready]: whenever [getCaptchaToken] returns a truthy value, its last
    request is such a poll. *)
Theorem getCaptchaToken_token_from_ready (w : W) :
  exists v,
    result (getCaptchaToken config w) = Ret v /\
    (truthy v = true ->
     exists before taskId data status solution,
       net (events (getCaptchaToken config w)) =
         before
           ++ [EvPost getTaskResultUrl (getResultPayload config taskId)
                 (Ret data)] /\
       getProp data "status" = Ret status /\
       strictEqStr status (str "ready") = true /\
       getProp data "solution" = Ret solution /\
       v = getPropOpt solution "token").
Proof.
  destruct (getCaptchaToken_Solving config w) as (v & Hr & HS).
  exists v. split; [exact Hr|]. intros Hv.
  destruct HS as [r H|data taskId t v Hid Htid HP]; [discriminate Hv|].
  destruct (Polling_token HP Hv) as (before & d & st & sol & -> & Hrest).
  eexists (_ :: before), taskId, d, st, sol.
  split; [reflexivity|exact Hrest].
Qed.

End CaptchaBounds.

Section FaucetFootprint.
Context {W : Type} {E : External W}.
Variable config : Config.

Lemma forallb_filter_nil (p q : Event -> bool) t :
  forallb p t = true -> (forall e, p e = true -> q e = false) ->
  filter q t = [].
Proof.
  intros Hp Hpq. induction t as [|e t IH]; [reflexivity|].
  cbn in Hp. apply andb_prop in Hp as [He Ht].
  cbn. rewrite (Hpq e He). now apply IH.
Qed.

Lemma pollLoop_faucetSide remaining taskId (w : W) :
  forallb faucetSide (events (pollLoop config remaining taskId w)) = true.
Proof.
  revert w. induction remaining as [|k IH]; intros w; [reflexivity|].
  cbn [pollLoop]. run_simpl. run_call; run_simpl; [|reflexivity].
  destruct (getProp a "status") as [status|e]; run_simpl; [|reflexivity].
  destruct (strictEqStr status (str "ready")); run_simpl.
  - destruct (getProp a "solution"); run_simpl; reflexivity.
  - destruct (strictEqStr status (str "failed")); run_simpl; [reflexivity|].
    cbn [events snd forallb]. rewrite IH. reflexivity.
Qed.

Lemma getCaptchaToken_faucetSide (w : W) :
  exists v w' t,
    getCaptchaToken config w = (Ret v, w', t) /\
    forallb faucetSide t = true.
Proof.
  unfold getCaptchaToken. run_simpl. run_call; run_simpl.
  - destruct (getProp a "taskId") as [taskId|e]; run_simpl.
    + destruct (truthy taskId); run_simpl.
      * pose proof (pollLoop_faucetSide maxAttempts taskId w0) as Hg.
        destruct (pollLoop config maxAttempts taskId w0) as [[[v|e] w2] t2];
          run_simpl; cbn [events snd] in Hg;
          do 3 eexists; (split; [reflexivity|]);
          cbn [forallb]; rewrite !forallb_app, Hg; reflexivity.
      * do 3 eexists; split; reflexivity.
    + do 3 eexists; split; reflexivity.
  - do 3 eexists; split; reflexivity.
Qed.

Lemma claimFaucet_faucetSide walletAddress (w : W) :
  exists b w' t,
    claimFaucet config walletAddress w =
      (Ret b, w',
       EvCall (claimFaucet_ walletAddress) :: t
         ++ [EvReturn (claimFaucet_ walletAddress) (JBool b)]) /\
    forallb faucetSide t = true.
Proof.
  unfold claimFaucet.
  apply method_quiet with (P := fun t => forallb faucetSide t = true).
  run_simpl.
  destruct (getCaptchaToken_faucetSide w) as (token & w1 & t1 & Hc & Hg1).
  rewrite Hc. run_simpl.
  assert (Hdone : forall (b : bool) (w' : W) t,
            forallb faucetSide t = true ->
            exists (b' : bool) (w'' : W) t',
              (@Ret bool b, w', t1 ++ t) = (Ret b', w'', t') /\
              forallb faucetSide t' = true).
  { intros b w' t Ht. do 3 eexists. split; [reflexivity|].
    now rewrite forallb_app, Hg1, Ht. }
  destruct (truthy token); run_simpl; [|now apply Hdone].
  run_call; run_simpl; [|now apply Hdone].
  destruct (truthy a) eqn:Ha; run_simpl.
  - destruct (getProp a "success") as [success|e]; run_simpl;
      [|now apply Hdone].
    destruct (truthy success); run_simpl; [|now apply Hdone].
    destruct (getProp a "data") as [d|e]; run_simpl; [|now apply Hdone].
    destruct (getProp d "transactionHash"); run_simpl; now apply Hdone.
  - rewrite Ha. run_simpl. now apply Hdone.
Qed.

(** A faucet claim talks to the captcha service and to the faucet and to
    nothing else: between its call and its return there are only requests
    to the three endpoints, two-second waits, log lines and the call of
    the captcha step; it never reads a file, never touches the chain or
    the storage network, the clock or the random source, and it does not
    call itself or the game. *)
Theorem claimFaucet_footprint walletAddress (w : W) :
  exists b t,
    result (claimFaucet config walletAddress w) = Ret b /\
    events (claimFaucet config walletAddress w) =
      EvCall (claimFaucet_ walletAddress) :: t
        ++ [EvReturn (claimFaucet_ walletAddress) (JBool b)] /\
    forallb faucetSide t = true.
Proof.
  destruct (claimFaucet_faucetSide walletAddress w)
    as (b & w' & t & Hc & Ht).
  exists b, t. rewrite Hc. auto.
Qed.

End FaucetFootprint.

Section CycleAccount.
Context {W : Type} {E : External W}.
Variable config : Config.

Lemma turns_app t1 t2 : turns (t1 ++ t2) = turns t1 ++ turns t2.
Proof. apply filter_app. Qed.

Lemma filter_within (p q : Event -> bool) t :
  (forall e, q e = true -> p e = true) ->
  filter q (filter p t) = filter q t.
Proof.
  intros Hqp. induction t as [|e t IH]; [reflexivity|].
  cbn. destruct (p e) eqn:Hp; cbn; rewrite IH; [reflexivity|].
  destruct (q e) eqn:Hq; [|reflexivity].
  apply Hqp in Hq. congruence.
Qed.

Lemma count_turns_claimed t : count isClaimed (turns t) = count isClaimed t.
Proof.
  unfold count, turns. rewrite filter_within; [reflexivity|].
  intros [] H; try discriminate H. destruct m; try discriminate H. reflexivity.
Qed.

Lemma count_turns_won t : count isWon (turns t) = count isWon t.
Proof.
  unfold count, turns. rewrite filter_within; [reflexivity|].
  intros [] H; try discriminate H. destruct m; try discriminate H. reflexivity.
Qed.

Lemma count_app p t1 t2 : count p (t1 ++ t2) = count p t1 + count p t2.
Proof. unfold count. rewrite filter_app, length_app. lia. Qed.

Lemma control_nil_turns t : control t = [] -> turns t = [].
Proof.
  unfold control, turns. induction t as [|e t IH]; [reflexivity|].
  cbn. destruct e; cbn; try discriminate; auto.
Qed.

Lemma faucetSide_turns t : forallb faucetSide t = true -> turns t = [].
Proof.
  intros H. apply forallb_filter_nil with (p := faucetSide); [exact H|].
  intros [] He; try discriminate He; try reflexivity.
  all: destruct m; try discriminate He; reflexivity.
Qed.

Lemma gameSide_turns t : forallb gameSide t = true -> turns t = [].
Proof.
  intros H. apply forallb_filter_nil with (p := gameSide); [exact H|].
  intros [] He; try discriminate He; try reflexivity.
  all: destruct m; try discriminate He; reflexivity.
Qed.

Lemma payForGame_gameSide walletInfo (w : W) :
  forallb gameSide (events (payForGame walletInfo w)) = true.
Proof.
  unfold payForGame. run_calls. all: run_if; run_calls; reflexivity.
Qed.

Lemma submitGameScore_gameSide walletInfo score (w : W) :
  forallb gameSide (events (submitGameScore walletInfo score w)) = true.
Proof. unfold submitGameScore. run_calls. all: reflexivity. Qed.

Lemma playGameForWallet_gameSide walletInfo (w : W) :
  exists b w' t,
    playGameForWallet config walletInfo w =
      (Ret b, w',
       EvCall (playGameForWallet_ walletInfo) :: t
         ++ [EvReturn (playGameForWallet_ walletInfo) (JBool b)]) /\
    forallb gameSide t = true.
Proof.
  unfold playGameForWallet.
  apply method_quiet with (P := fun t => forallb gameSide t = true).
  run_simpl.
  pose proof (payForGame_gameSide walletInfo w) as Hside.
  destruct (payForGame_run walletInfo w) as (tx & w1 & tp & Hp & _).
  rewrite Hp in *. cbn [events snd forallb gameSide andb] in Hside.
  rewrite forallb_app in Hside. apply andb_prop in Hside as [Hside _].
  run_simpl.
  destruct (truthy tx); run_simpl.
  - rewrite simulateSnakeGame_run. run_simpl.
    match goal with
    | |- context [submitGameScore walletInfo ?s ?w2] =>
        pose proof (submitGameScore_gameSide walletInfo s w2) as Hside';
        destruct (submitGameScore_run walletInfo s w2)
          as (b & w3 & ts & Hsub & _); rewrite Hsub in *
    end.
    cbn [events snd forallb gameSide andb] in Hside'.
    rewrite forallb_app in Hside'. apply andb_prop in Hside' as [Hside' _].
    destruct b; run_simpl; do 3 eexists; (split; [reflexivity|]);
      cbn [forallb gameSide andb];
      repeat (rewrite ?forallb_app; cbn [forallb gameSide andb app]);
      rewrite Hside, Hside'; reflexivity.
  - do 3 eexists; (split; [reflexivity|]).
    cbn [forallb gameSide andb];
      repeat (rewrite ?forallb_app; cbn [forallb gameSide andb app]).
    rewrite Hside. reflexivity.
Qed.

Lemma playGameForWallet_turn walletInfo (w : W) :
  exists b w' t,
    playGameForWallet config walletInfo w =
      (Ret b, w',
       EvCall (playGameForWallet_ walletInfo) :: t
         ++ [EvReturn (playGameForWallet_ walletInfo) (JBool b)]) /\
    turns t = [] /\ forallb workSide t = true.
Proof.
  destruct (playGameForWallet_gameSide walletInfo w)
    as (b & w' & t & Hp & Hside).
  exists b, w', t. split; [exact Hp|]. split; [now apply gameSide_turns|].
  apply forallb_forall. intros e He. unfold workSide.
  rewrite forallb_forall in Hside. rewrite (Hside e He).
  now rewrite orb_true_r.
Qed.

Lemma FailFast_counts wallet n g :
  FailFast wallet n g ->
  count isClaimed g = 0 /\ 0 <= count isWon g <= Z.of_nat n.
Proof.
  induction 1 as [|n t _ [Hc Hw]|n].
  - cbn. lia.
  - unfold count in *. cbn [filter isClaimed isWon List.length] in *. lia.
  - unfold count. cbn. lia.
Qed.

Lemma faucetSide_workSide t :
  forallb faucetSide t = true -> forallb workSide t = true.
Proof.
  rewrite !forallb_forall. intros H e He. unfold workSide.
  now rewrite (H e He).
Qed.

Lemma workSide_sleep ms : workSide (EvSleep ms) = true.
Proof. unfold workSide. cbn. now destruct (ms =? 2000). Qed.

Lemma gameLoop_account remaining gameNum wallet gameSuccesses (w : W) :
  exists s (w' : W) t,
    gameLoop config remaining gameNum wallet gameSuccesses w = (Ret s, w', t)
    /\ FailFast wallet remaining (turns t)
    /\ s = gameSuccesses + count isWon (turns t)
    /\ forallb workSide t = true.
Proof.
  revert gameNum gameSuccesses w.
  induction remaining as [|k IH]; intros gameNum gameSuccesses w.
  - do 3 eexists. split; [reflexivity|]. split; [apply ff_none|].
    unfold count. cbn. split; [lia|reflexivity].
  - cbn [gameLoop]. run_simpl.
    destruct (playGameForWallet_turn wallet w)
      as (b & w1 & t1 & Hp & Hg & Hside).
    rewrite Hp. run_simpl. destruct b; run_simpl.
    + destruct (gameNum <? gamesPerWallet config); run_simpl;
        match goal with
        | |- context [gameLoop config k ?g wallet ?s ?w2] =>
            destruct (IH g s w2) as (s' & w3 & t3 & Hl & Hff & Hs & Hside');
            rewrite Hl
        end;
        run_simpl; do 3 eexists; (split; [reflexivity|]);
        cbn [turns filter isTurn isClaim isGame orb];
        repeat (rewrite ?turns_app;
                cbn [turns filter isTurn isClaim isGame orb app]);
        fold (turns t1); fold (turns t3); rewrite Hg; cbn [app];
        (split; [apply ff_completed; exact Hff|]);
        (split;
           [rewrite Hs; unfold count; cbn [filter isWon List.length]; lia|]);
        cbn [forallb]; rewrite ?forallb_app; cbn [forallb];
        rewrite ?forallb_app; cbn [forallb];
        rewrite ?workSide_sleep, Hside, Hside'; reflexivity.
    + do 3 eexists; (split; [reflexivity|]).
      cbn [turns filter isTurn isClaim isGame orb];
        repeat (rewrite ?turns_app;
                cbn [turns filter isTurn isClaim isGame orb app]).
      fold (turns t1). rewrite Hg. cbn [app].
      split; [apply ff_failed|]. unfold count.
      split; [cbn; lia|].
      cbn [forallb]; rewrite ?forallb_app; cbn [forallb];
        rewrite ?forallb_app; cbn [forallb].
      rewrite Hside. reflexivity.
Qed.

Lemma processWallet_account wallet counters (w : W) :
  exists c (w' : W) t,
    processWallet config wallet counters w = (Ret c, w', t) /\
    WalletTurn config wallet (turns t) /\
    c = (fst counters + count isClaimed (turns t),
         snd counters + count isWon (turns t)) /\
    forallb workSide t = true.
Proof.
  unfold processWallet.
  assert (Hgame : forall (w1 : W),
            exists s (w' : W) t,
              (if game_enabled config
               then
                 log_info "Starting games for wallet" ;;
                 gameLoop config (Z.to_nat (gamesPerWallet config)) 1
                   wallet (snd counters)
               else ret (snd counters)) w1 = (Ret s, w', t) /\
              FailFast wallet (plannedGames config) (turns t) /\
              s = snd counters + count isWon (turns t) /\
              forallb workSide t = true).
  { intros w1. unfold plannedGames.
    destruct (game_enabled config); run_simpl.
    - destruct (gameLoop_account (Z.to_nat (gamesPerWallet config)) 1 wallet
                  (snd counters) w1) as (s & w2 & t2 & Hl & Hff & Hs & Hside).
      rewrite Hl. run_simpl. do 3 eexists. split; [reflexivity|].
      cbn [turns filter isTurn isClaim isGame orb]. repeat split; try assumption.
    - do 3 eexists. split; [reflexivity|]. split; [apply ff_none|].
      unfold count. cbn. split; [lia|reflexivity]. }
  run_simpl.
  destruct (faucet_enabled config) eqn:Hfaucet; run_simpl.
  - destruct (claimFaucet_faucetSide config (address wallet) w)
      as (b & w1 & t1 & Hc & Hg).
    pose proof (faucetSide_workSide _ Hg) as Hside1.
    apply faucetSide_turns in Hg.
    rewrite Hc. run_simpl.
    destruct b; run_simpl;
      match goal with
      | |- context [(if game_enabled config then _ else _) ?w2] =>
          destruct (Hgame w2) as (s & w3 & t3 & Hb & Hff & Hs & Hside3)
      end;
      rewrite Hb; run_simpl; do 3 eexists; (split; [reflexivity|]);
      cbn [turns filter isTurn isClaim isGame orb];
      repeat (rewrite ?turns_app;
              cbn [turns filter isTurn isClaim isGame orb app]);
      fold (turns t1); fold (turns t3); rewrite Hg, ?app_nil_r; cbn [app];
      (split; [apply turn_claim_then_games; assumption|]);
      destruct (FailFast_counts Hff) as [Hnone _];
      (split;
         [unfold count in *; cbn [filter isClaimed isWon List.length];
          rewrite Hs; f_equal; lia|]);
      cbn [forallb]; rewrite ?forallb_app; cbn [forallb];
      rewrite ?forallb_app; cbn [forallb];
      rewrite ?workSide_sleep, Hside1, Hside3; reflexivity.
  - destruct (Hgame w) as (s & w3 & t3 & Hb & Hff & Hs & Hside3).
    rewrite Hb. run_simpl. do 3 eexists. split; [reflexivity|].
    cbn [turns filter isTurn isClaim isGame orb].
    repeat (rewrite ?turns_app;
            cbn [turns filter isTurn isClaim isGame orb app]).
    rewrite ?app_nil_r. fold (turns t3).
    split; [apply turn_games_only; assumption|].
    destruct (FailFast_counts Hff) as [Hnone _].
    split; [rewrite Hs, Hnone; f_equal; lia|].
    cbn [forallb]. rewrite Hside3. reflexivity.
Qed.

Lemma processWallets_account wallets counters (w : W) :
  exists c (w' : W) t segments,
    processWallets config wallets counters w = (Ret c, w', t) /\
    Forall2 (WalletTurn config) wallets segments /\
    turns t = List.concat segments /\
    c = (fst counters + count isClaimed (turns t),
         snd counters + count isWon (turns t)) /\
    forallb workSide t = true.
Proof.
  revert counters w. induction wallets as [|wallet rest IH]; intros counters w.
  - exists counters, w, [], []. repeat split; [constructor|].
    unfold count. cbn. destruct counters; cbn. f_equal; lia.
  - cbn [processWallets]. run_simpl.
    destruct (processWallet_account wallet counters w)
      as (c1 & w1 & t1 & Hp & Hturn & Hc1 & Hside1).
    rewrite Hp. run_simpl.
    destruct (IH c1 w1)
      as (c2 & w2 & t2 & segments & Hr & Hall & Hg & Hc2 & Hside2).
    rewrite Hr. run_simpl.
    exists c2, w2, (t1 ++ t2), (turns t1 :: segments).
    split; [reflexivity|]. split; [constructor; assumption|].
    split; [rewrite turns_app, Hg; reflexivity|].
    split; [|now rewrite forallb_app, Hside1, Hside2].
    rewrite Hc2, Hc1, turns_app, !count_app. cbn [fst snd]. f_equal; lia.
Qed.

Lemma WalletTurn_counts wallet g :
  WalletTurn config wallet g ->
  0 <= count isClaimed g <= (if faucet_enabled config then 1 else 0) /\
  0 <= count isWon g <= Z.of_nat (plannedGames config).
Proof.
  intros [b g' Hf Hff|g' Hf Hff]; rewrite Hf;
    destruct (FailFast_counts Hff) as [Hnone Hwon].
  - unfold count in *. destruct b; cbn [filter isClaimed isWon List.length];
      lia.
  - lia.
Qed.

Lemma turns_counts wallets segments :
  Forall2 (WalletTurn config) wallets segments ->
  0 <= count isClaimed (List.concat segments)
    <= (if faucet_enabled config then Z.of_nat (List.length wallets) else 0)
  /\
  0 <= count isWon (List.concat segments)
    <= Z.of_nat (List.length wallets) * Z.of_nat (plannedGames config).
Proof.
  induction 1 as [|wallet g wallets segments Hturn _ IH].
  - unfold count. cbn. destruct (faucet_enabled config); lia.
  - apply WalletTurn_counts in Hturn.
    cbn [List.concat List.length]. rewrite !count_app.
    destruct (faucet_enabled config); nia.
Qed.

Lemma workSide_countdown t :
  forallb workSide t = true -> filter isCountdown t = [].
Proof.
  intros H. apply forallb_filter_nil with (p := workSide); [exact H|].
  intros [] He; try discriminate He; reflexivity.
Qed.

Lemma runCycle_account wallets (w : W) :
  exists c w' t segments,
    runCycle config wallets w = (Ret c, w', t) /\
    Forall2 (WalletTurn config) wallets segments /\
    turns t = List.concat segments /\
    c = (count isClaimed t, count isWon t) /\
    filter isCountdown t = [EvCountdown (hours_between_runs config)].
Proof.
  unfold runCycle. run_simpl.
  destruct (processWallets_account wallets (0, 0) w)
    as (c & w1 & t & segments & Hr & Hall & Hg & Hc & Hside).
  apply workSide_countdown in Hside.
  rewrite Hr. run_simpl.
  destruct (faucet_enabled config), (game_enabled config); run_simpl;
    unfold countdown; run_simpl;
    do 3 eexists; exists segments; (split; [reflexivity|]);
    (split; [exact Hall|]);
    rewrite <- count_turns_claimed, <- count_turns_won;
    rewrite turns_app, filter_app, Hside;
    cbn [turns filter isTurn isClaim isGame isCountdown orb app];
    rewrite app_nil_r; fold (turns t);
    (split; [exact Hg|]); (split; [exact Hc|reflexivity]).
Qed.

(** In one cycle the scheduler takes the wallets in list order and gives
    each one its turn: with the faucet enabled exactly one claim, never
    repeated and whatever its result, and then the wallet's fail-fast run
    of game iterations; a failed claim neither stops the wallet's games
    nor the wallets after it. *)
Theorem runCycle_wallet_turns wallets (w : W) :
  exists segments,
    Forall2 (WalletTurn config) wallets segments /\
    turns (events (runCycle config wallets w)) = List.concat segments.
Proof.
  destruct (runCycle_account wallets w)
    as (c & w' & t & segments & Hr & Hall & Hg & _).
  exists segments. rewrite Hr. auto.
Qed.

(** The two success counters of a cycle are the number of claims and the
    number of game iterations of that cycle that returned [true]; the
    first is at most the number of wallets, and 0 with the faucet
    disabled, the second at most the number of wallets times the planned
    games per wallet. *)
Theorem runCycle_counters wallets (w : W) :
  let evs := events (runCycle config wallets w) in
  result (runCycle config wallets w) =
    Ret (count isClaimed evs, count isWon evs) /\
  0 <= count isClaimed evs
    <= (if faucet_enabled config then Z.of_nat (List.length wallets) else 0)
  /\
  0 <= count isWon evs
    <= Z.of_nat (List.length wallets) * Z.of_nat (plannedGames config).
Proof.
  cbv zeta.
  destruct (runCycle_account wallets w)
    as (c & w' & t & segments & Hr & Hall & Hg & Hc & _).
  rewrite Hr. cbn [result events fst snd]. split; [now rewrite Hc|].
  rewrite <- count_turns_claimed, <- count_turns_won, Hg.
  now apply turns_counts.
Qed.

(** A game iteration talks to the chain and to the storage network and
    to nothing else: between its call and its return there are only chain
    and storage calls, readings of the clock and of the random source,
    waits, log lines and the calls of its three steps; it sends no HTTP
    request, reads no file, and calls neither itself nor the faucet. *)
Theorem playGameForWallet_footprint walletInfo (w : W) :
  exists b t,
    result (playGameForWallet config walletInfo w) = Ret b /\
    events (playGameForWallet config walletInfo w) =
      EvCall (playGameForWallet_ walletInfo) :: t
        ++ [EvReturn (playGameForWallet_ walletInfo) (JBool b)] /\
    forallb gameSide t = true.
Proof.
  destruct (playGameForWallet_gameSide walletInfo w)
    as (b & w' & t & Hp & Hside).
  exists b, t. rewrite Hp. auto.
Qed.

Lemma run_account cycles wallets (w : W) :
  exists w' t passes,
    run config cycles wallets w = (Ret tt, w', t) /\
    List.length passes = cycles /\
    Forall (Forall2 (WalletTurn config) wallets) passes /\
    turns t = List.concat (map (@List.concat Event) passes) /\
    filter isCountdown t =
      repeat (EvCountdown (hours_between_runs config)) cycles.
Proof.
  revert w. induction cycles as [|k IH]; intros w.
  - exists w, [], []. repeat split. constructor.
  - cbn [run]. run_simpl.
    destruct (runCycle_account wallets w)
      as (c & w1 & t1 & segments & Hr & Hall & Hg & _ & Hcd).
    rewrite Hr. run_simpl.
    destruct (IH w1) as (w2 & t2 & passes & Hrun & Hlen & Hpasses & Hg2 & Hcd2).
    rewrite Hrun. run_simpl.
    exists w2, (t1 ++ t2), (segments :: passes).
    split; [reflexivity|]. split; [cbn; now rewrite Hlen|].
    split; [constructor; assumption|].
    split; [rewrite turns_app, Hg, Hg2; reflexivity|].
    rewrite filter_app, Hcd, Hcd2. reflexivity.
Qed.

(** The loop of [run] is never left by an error: whatever fails at the
    captcha service, the faucet, the chain or the storage network, every
    cycle gives every wallet its turn, ends with one countdown of the
    configured hours, and is followed by the next cycle. *)
Theorem run_keeps_cycling cycles wallets (w : W) :
  let evs := events (run config cycles wallets w) in
  result (run config cycles wallets w) = Ret tt /\
  filter isCountdown evs =
    repeat (EvCountdown (hours_between_runs config)) cycles /\
  exists passes,
    List.length passes = cycles /\
    Forall (Forall2 (WalletTurn config) wallets) passes /\
    turns evs = List.concat (map (@List.concat Event) passes).
Proof.
  cbv zeta.
  destruct (run_account cycles wallets w)
    as (w' & t & passes & Hrun & Hlen & Hpasses & Hg & Hcd).
  rewrite Hrun. cbn [result events fst snd].
  split; [reflexivity|]. split; [exact Hcd|]. now exists passes.
Qed.

End CycleAccount.

Section KeyFile.
Context {W : Type} {E : External W}.
Variable config : Config.

Lemma trimStart_padding before s :
  forallb isWhiteSpace before = true ->
  trimStart (before ++ s) = trimStart s.
Proof.
  induction before as [|c before IH]; [reflexivity|].
  cbn. intros H. apply andb_prop in H as [Hc H]. rewrite Hc. now apply IH.
Qed.

Lemma trimStart_blank s : forallb isWhiteSpace s = true -> trimStart s = [].
Proof.
  intros H. rewrite <- (app_nil_r s). now rewrite trimStart_padding.
Qed.

Lemma trimStart_padding_end s after :
  forallb isWhiteSpace after = true ->
  trimStart (s ++ after) =
    match trimStart s with
    | [] => []
    | _ => trimStart s ++ after
    end.
Proof.
  intros H. induction s as [|c s IH]; [now apply trimStart_blank|].
  cbn. destruct (isWhiteSpace c); [exact IH|reflexivity].
Qed.

Lemma forallb_rev (p : N -> bool) s : forallb p (rev s) = forallb p s.
Proof.
  induction s as [|c s IH]; [reflexivity|].
  cbn. rewrite forallb_app, IH. cbn. now rewrite andb_true_r, andb_comm.
Qed.

Lemma trimEnd_padding s after :
  forallb isWhiteSpace after = true -> trimEnd (s ++ after) = trimEnd s.
Proof.
  intros H. unfold trimEnd. rewrite rev_app_distr, trimStart_padding;
    [reflexivity|now rewrite forallb_rev].
Qed.

Lemma trim_padded line line' : padded line line' -> trim line' = trim line.
Proof.
  intros (before & after & Hb & Ha & ->). unfold trim.
  rewrite trimStart_padding by exact Hb.
  rewrite trimStart_padding_end by exact Ha.
  destruct (trimStart line) as [|c s] eqn:Hs; [reflexivity|].
  now apply trimEnd_padding.
Qed.

(** White space around the lines of the key file makes no difference to
    the wallets that are loaded: a file with carriage returns at the line
    ends, or with indented keys, gives the same result as the file
    without them. *)
Theorem loadLines_ignores_padding lines lines' wallets :
  Forall2 padded lines lines' ->
  loadLines lines' wallets = loadLines lines wallets.
Proof.
  intros H. revert wallets.
  induction H as [|line line' lines lines' Hpad _ IH]; intros wallets;
    [reflexivity|].
  cbn [loadLines]. cbv zeta. rewrite (trim_padded Hpad).
  destruct (negb (truthy (JStr (trim line)))
            || startsWith (str "#") (trim line)); [apply IH|].
  destruct (newWallet _); [apply IH|reflexivity].
Qed.

Lemma keyOfLine_prefixed line key :
  keyOfLine line = Some key -> startsWith (str "0x") key = true.
Proof.
  unfold keyOfLine. destruct (trim line) as [|c s]; [discriminate|].
  destruct (startsWith (str "#") (c :: s)); [discriminate|].
  destruct (startsWith (str "0x") (c :: s)) eqn:Hp; intros [= <-];
    [exact Hp|].
  change (str "0x") with [48%N; 120%N]. reflexivity.
Qed.

Lemma validLineWallets_consistent lines :
  Forall consistentEntry (validLineWallets lines).
Proof.
  unfold validLineWallets, candidateKeys.
  induction lines as [|line lines IH]; [constructor|].
  cbn [flat_map]. rewrite flat_map_app. apply Forall_app. split; [|exact IH].
  destruct (keyOfLine line) as [key|] eqn:Hkey; [|constructor].
  cbn [flat_map]. unfold walletEntry.
  destruct (newWallet key) as [wallet|e] eqn:Hw; [|constructor].
  constructor; [|constructor].
  split; [exact (keyOfLine_prefixed _ Hkey)|]. split; [exact Hw|reflexivity].
Qed.

Lemma loadWallets_run (w : W) :
  exists wallets (w' : W) r lvl msg,
    loadWallets config w =
      (Ret wallets, w',
       [EvReadFile (private_key_file config) r; EvLog lvl msg]) /\
    Forall consistentEntry wallets.
Proof.
  unfold loadWallets. run_simpl. run_call; run_simpl.
  - pose proof (loadLines_all_or_nothing (split 10 a) []) as H.
    destruct (allDerive (split 10 a)).
    + rewrite H. run_simpl. do 5 eexists. split; [reflexivity|].
      apply validLineWallets_consistent.
    + destruct H as [e ->]. run_simpl. do 5 eexists.
      split; [reflexivity|constructor].
  - do 5 eexists. split; [reflexivity|constructor].
Qed.

(** Whatever the key file holds, the loader reads that one file and
    nothing else, and the three fields of every entry it returns belong
    together: the stored key starts with ["0x"], the stored wallet is the
    wallet of the stored key, and the stored address is the address of
    that wallet.  So payments are signed, uploads are paid and score
    records are tagged for one and the same account. *)
Theorem loadWallets_entries_consistent (w : W) :
  exists wallets r lvl msg,
    result (loadWallets config w) = Ret wallets /\
    Forall consistentEntry wallets /\
    events (loadWallets config w) =
      [EvReadFile (private_key_file config) r; EvLog lvl msg].
Proof.
  destruct (loadWallets_run w) as (wallets & w' & r & lvl & msg & Hrun & Hall).
  exists wallets, r, lvl, msg. rewrite Hrun. auto.
Qed.

End KeyFile.

Section CountdownLine.

Lemma pad2_table :
  forallb (fun n : nat =>
             let k := Z.of_nat n in
             jsstring_eqb (padStart 2 48 (Z_toString k))
               [Z.to_N (48 + k / 10); Z.to_N (48 + k mod 10)])
          (seq 0 100) = true.
Proof. vm_compute. reflexivity. Qed.

Lemma pad2_digits k :
  0 <= k < 100 ->
  padStart 2 48 (Z_toString k) =
    [Z.to_N (48 + k / 10); Z.to_N (48 + k mod 10)].
Proof.
  intros Hk. pose proof pad2_table as H. rewrite forallb_forall in H.
  specialize (H (Z.to_nat k)). cbv zeta in H.
  rewrite Z2Nat.id in H by lia.
  unfold jsstring_eqb in H.
  destruct (list_eq_dec N.eq_dec _ _) as [Heq|]; [exact Heq|].
  discriminate H. apply in_seq. lia.
Qed.

Lemma twoDigits_pad k :
  0 <= k < 100 ->
  twoDigits (Z.to_N (48 + k / 10)) (Z.to_N (48 + k mod 10)) = Some k.
Proof.
  intros Hk. unfold twoDigits, digit.
  assert (H1 : 0 <= k / 10 <= 9) by (Z.div_mod_to_equations; lia).
  assert (H2 : 0 <= k mod 10 <= 9) by (Z.div_mod_to_equations; lia).
  replace ((48 <=? Z.to_N (48 + k / 10))%N) with true
    by (symmetry; apply N.leb_le; lia).
  replace ((Z.to_N (48 + k / 10) <=? 57)%N) with true
    by (symmetry; apply N.leb_le; lia).
  replace ((48 <=? Z.to_N (48 + k mod 10))%N) with true
    by (symmetry; apply N.leb_le; lia).
  replace ((Z.to_N (48 + k mod 10) <=? 57)%N) with true
    by (symmetry; apply N.leb_le; lia).
  cbn [andb]. f_equal. rewrite !Z2N.id by lia.
  Z.div_mod_to_equations; lia.
Qed.

(** While less than a hundred hours are left, the countdown line shows
    eight characters [HH:MM:SS] which, read as hours, minutes below 60 and
    seconds below 60, are the whole seconds left until the end time. *)
Theorem timer_shows_seconds_left endTime now :
  now < endTime ->
  endTime - now < 360000000 ->
  List.length (timer endTime now) = 8%nat /\
  readClock (timer endTime now) = Some ((endTime - now) / 1000).
Proof.
  intros Hlt Hbound. unfold timer. cbv zeta.
  set (remaining := (endTime - now) / 1000).
  assert (Hr : 0 <= remaining < 360000)
    by (unfold remaining; Z.div_mod_to_equations; lia).
  rewrite !Z.rem_mod_nonneg by lia.
  assert (Hh : 0 <= remaining / 3600 < 100)
    by (Z.div_mod_to_equations; lia).
  assert (Hm : 0 <= remaining mod 3600 / 60 < 60)
    by (Z.div_mod_to_equations; lia).
  assert (Hs : 0 <= remaining mod 60 < 60)
    by (Z.div_mod_to_equations; lia).
  rewrite !pad2_digits by lia.
  change (str ":") with [58%N]. cbn [app List.length].
  split; [reflexivity|]. unfold readClock.
  rewrite !twoDigits_pad by lia.
  replace (remaining mod 3600 / 60 <? 60) with true by (symmetry; lia).
  replace (remaining mod 60 <? 60) with true by (symmetry; lia).
  cbn [andb]. f_equal. Z.div_mod_to_equations; lia.
Qed.

End CountdownLine.

Section TimeBudget.
Context {W : Type} {E : External W}.
Variable config : Config.
Hypothesis claims_delay : 0 <= delay_between_claims config.
Hypothesis games_delay : 0 <= delay_between_games config.
Hypothesis play_time :
  0 <= min_play_time config <= max_play_time config.









End TimeBudget.

Section ProcessStart.
Context {W : Type} {E : External W}.
Variable yaml_load : jsstring -> Outcome (option Config).

Lemma idleSide_turns t : forallb idleSide t = true -> turns t = [].
Proof.
  intros H. apply forallb_filter_nil with (p := idleSide); [exact H|].
  intros [] He; try discriminate He; reflexivity.
Qed.

Lemma run_idle config cycles (w : W) :
  exists w' t,
    run config cycles [] w = (Ret tt, w', t) /\ forallb idleSide t = true.
Proof.
  revert w. induction cycles as [|k IH]; intros w.
  - now exists w, [].
  - cbn [run]. unfold runCycle, countdown. cbn [processWallets]. run_simpl.
    destruct (faucet_enabled config), (game_enabled config); run_simpl;
      match goal with
      | |- context [run config k [] ?w1] =>
          destruct (IH w1) as (w2 & t2 & Hrun & Hidle); rewrite Hrun
      end;
      run_simpl; do 2 eexists; (split; [reflexivity|]);
      cbn [forallb idleSide andb]; exact Hidle.
Qed.


(** A key file that cannot be used is not fatal: when the loader answers
    no wallet, the process goes on cycling with the empty wallet list, and
    all it ever does is read its two files, write log lines and count
    down; it never exits. *)
Theorem main_idles_without_wallets cycles (w : W) config :
  startConfig yaml_load w = Some config ->
  result (loadWallets config (snd (readFileSync (str "config.yaml") w)))
    = Ret [] ->
  result (main yaml_load cycles w) = Ret None /\
  forallb idleSide (events (main yaml_load cycles w)) = true /\
  filter isCountdown (events (main yaml_load cycles w)) =
    repeat (EvCountdown (hours_between_runs config)) cycles.
Proof.
  unfold startConfig, main, construct, loadConfig.
  run_simpl. run_call; run_simpl; [|discriminate].
  destruct (yaml_load a) as [[config'|]|e]; try discriminate.
  intros [= ->] Hnone. run_simpl.
  destruct (loadWallets_run config w0)
    as (wallets & w1 & r & lvl & msg & Hload & _).
  rewrite Hload in Hnone |- *. cbn [result fst] in Hnone.
  injection Hnone as ->. run_simpl.
  destruct (run_idle config cycles w1) as (w2 & t2 & Hrun & Hidle).
  pose proof (run_account config cycles [] w1) as Hacc.
  rewrite Hrun in Hacc |- *.
  destruct Hacc as (w3 & t3 & passes & Heq & _ & _ & _ & Hcd).
  injection Heq as <- <-. run_simpl. cbn [result events fst snd].
  split; [reflexivity|].
  split; [cbn [forallb idleSide andb]; rewrite forallb_app, Hidle;
          reflexivity|].
  cbn [filter isCountdown app]. rewrite filter_app, Hcd. cbn.
  now rewrite app_nil_r.
Qed.

End ProcessStart.

(* ===================================================================== *)
(** ** Further runs on the scripted world *)
(* ===================================================================== *)

Section FurtherRuns.
Import Scripted.
Import ScriptedStart.

(** *** The payment *)

Lemma payForGame_transaction_intent_witness :
  let tx := {| tx_to := NETWORK_SETTINGS.contract_address;
               tx_value := NETWORK_SETTINGS.payment_amount_wei;
               tx_gasLimit := 110000;
               tx_gasPrice := 1000000000;
               tx_nonce := 7;
               tx_chainId := 1270 |} in
  In (EvSignTransaction (wallet alice) tx (Ret (str "0xf86b")))
     (events (payForGame alice calm)) /\
  In (EvGetTransactionCount (address alice) (Ret 7))
     (events (payForGame alice calm)) /\
  In (EvGetGasPrice (Ret 1000000000)) (events (payForGame alice calm)).
Proof.
  cbv zeta.
  assert (H : In (EvSignTransaction (wallet alice)
                    {| tx_to := NETWORK_SETTINGS.contract_address;
                       tx_value := NETWORK_SETTINGS.payment_amount_wei;
                       tx_gasLimit := 110000;
                       tx_gasPrice := 1000000000;
                       tx_nonce := 7;
                       tx_chainId := 1270 |} (Ret (str "0xf86b")))
                 (events (payForGame alice calm))).
  { vm_compute. repeat first [left; reflexivity | right]. }
  split; [exact H|].
  destruct (payForGame_transaction_intent alice calm _ _ _ H)
    as (_ & _ & _ & _ & Hnonce & Hprice).
  split; [exact Hnonce|exact Hprice].
Defined.

(** *** The game session *)


(** The draws 1/2 and 9/16 give the score 15 and two seconds of play. *)
Example simulateSnakeGame_two_seconds :
  result (simulateSnakeGame sampleConfig calm) = Ret 15 /\
  waited (events (simulateSnakeGame sampleConfig calm)) = 2000.
Proof. vm_compute. split; reflexivity. Qed.

(** *** The orchestrator *)

Lemma playGameForWallet_publishes_played_score_witness :
  let evs := events (playGameForWallet sampleConfig alice calm) in
  let data := stringify (scoreRecord 15 (str "2025-01-01T00:00:00.000Z")) in
  let tags := scoreTags (address alice) 15 1700000007000 in
  In (EvUpload 1%N data tags (Ret (str "upload-1"))) evs /\
  exists score timestamp date,
    In (EvReturn simulateSnakeGame_ (JNum score)) evs /\
    In (EvWithWallet (privateKey alice) (Ret 1%N)) evs /\
    In (EvDateNow timestamp) evs /\
    In (EvToISOString date) evs /\
    data = JSON_stringify (scoreRecord score date) /\
    tags = scoreTags (address alice) score timestamp.
Proof.
  cbv zeta.
  assert (H : In (EvUpload 1%N
                    (stringify
                       (scoreRecord 15 (str "2025-01-01T00:00:00.000Z")))
                    (scoreTags (address alice) 15 1700000007000)
                    (Ret (str "upload-1")))
                 (events (playGameForWallet sampleConfig alice calm))).
  { vm_compute. repeat first [left; reflexivity | right]. }
  split; [exact H|].
  exact (playGameForWallet_publishes_played_score sampleConfig alice calm
           _ _ _ _ H).
Defined.

(** *** The scheduler *)


(** With the sample configuration a wallet's turn waits 50 seconds at
    most; in the calm world, where only the first payment is confirmed,
    the cycle of two wallets waits 7 seconds. *)
Example runCycle_waits_seven_seconds :
  walletBudget sampleConfig = 50000 /\
  waited (events (runCycle sampleConfig [alice; bob] calm)) = 7000.
Proof. vm_compute. split; reflexivity. Qed.

(** *** The wallet set *)

Lemma loadLines_ignores_padding_witness :
  let line := skipn 2 aliceKey in
  let line' := str "  " ++ line ++ [13%N] in
  Forall2 padded [line; bobKey] [line'; bobKey ++ [13%N]] /\
  loadLines [line'; bobKey ++ [13%N]] [] = loadLines [line; bobKey] [].
Proof.
  cbv zeta.
  assert (H : Forall2 padded [skipn 2 aliceKey; bobKey]
                [str "  " ++ skipn 2 aliceKey ++ [13%N]; bobKey ++ [13%N]]).
  { constructor; [|constructor; [|constructor]].
    - exists (str "  "), [13%N]. repeat split.
    - exists [], [13%N]. repeat split. }
  split; [exact H|].
  exact (@loadLines_ignores_padding World external _ _ [] H).
Defined.

Example loadLines_carriage_returns :
  loadLines [skipn 2 aliceKey ++ [13%N]; bobKey ++ [13%N]] []
  = Ret [alice; bob].
Proof. vm_compute. reflexivity. Qed.

(** *** The countdown line *)

Lemma timer_shows_seconds_left_witness :
  1000 < 90000000 /\
  90000000 - 1000 < 360000000 /\
  List.length (timer 90000000 1000) = 8%nat /\
  readClock (timer 90000000 1000) = Some ((90000000 - 1000) / 1000).
Proof.
  assert (H1 : 1000 < 90000000) by lia.
  assert (H2 : 90000000 - 1000 < 360000000) by lia.
  split; [exact H1|]. split; [exact H2|].
  exact (timer_shows_seconds_left H1 H2).
Defined.

(** One second into a wait of 25 hours. *)
Example timer_of_25_hours : timer 90000000 1000 = str "24:59:59".
Proof. vm_compute. reflexivity. Qed.

(** From a hundred hours on the hours take three characters. *)
Example timer_of_100_hours : timer 360000000 0 = str "100:00:00".
Proof. vm_compute. reflexivity. Qed.

(** *** The start of the process *)

Lemma main_idles_without_wallets_witness :
  startConfig sampleYaml noKeys = Some sampleConfig /\
  result (loadWallets sampleConfig
            (snd (readFileSync (str "config.yaml") noKeys))) = Ret [] /\
  result (main sampleYaml 2 noKeys) = Ret None /\
  forallb idleSide (events (main sampleYaml 2 noKeys)) = true /\
  filter isCountdown (events (main sampleYaml 2 noKeys)) =
    repeat (EvCountdown (hours_between_runs sampleConfig)) 2.
Proof.
  assert (H1 : startConfig sampleYaml noKeys = Some sampleConfig)
    by (vm_compute; reflexivity).
  assert (H2 : result (loadWallets sampleConfig
                         (snd (readFileSync (str "config.yaml") noKeys)))
               = Ret []) by (vm_compute; reflexivity).
  split; [exact H1|]. split; [exact H2|].
  exact (main_idles_without_wallets sampleYaml 2 noKeys H1 H2).
Defined.

(** Without [config.yaml] the process logs two errors and exits. *)
Example main_without_files :
  result (main sampleYaml 3 noFiles) = Ret (Some 1) /\
  List.length (events (main sampleYaml 3 noFiles)) = 3%nat.
Proof. vm_compute. split; reflexivity. Qed.

End FurtherRuns.
